(** * LoadImageBatchUpload: the multi-image loader node

    A shallow embedding of [multi_image_loader.py] and the properties its
    specification states about it.

    The node is a thin adapter over four collaborators it does not own: the
    host's [folder_paths] module, [os.path], [json] and the imaging stack
    (PIL, numpy, torch).  The embedding keeps that boundary visible:

    - what the file itself computes (input normalisation, path fallback,
      the filter table, the batch policy, the error messages) is written out
      as Rocq functions that follow the Python text line by line;
    - what a collaborator computes is a field of the record [Lib]; the few
      facts the loader relies on (a resized image has the requested size, an
      RGB image unpacks to height * width * 3 bytes) are the record
      [LibLaws];
    - tensors are a shape and a row-major list of binary32 values, the
      latter taken from [SpecFloat] at precision 24 and exponent bound 128.

    Python [str] is [string], one [ascii] per character, which covers the
    characters U+0000..U+00FF.  Exceptions are values of [exn]; a call
    either returns [Ok v] or [Raise e]. *)

From Stdlib Require Import List String Ascii Bool Arith ZArith NArith Lia.
From Stdlib Require Import Strings.Byte Numbers.DecimalString.
From Stdlib Require Import Floats.SpecFloat.
Import ListNotations.
Local Open Scope string_scope.

Set Implicit Arguments.

(* ------------------------------------------------------------------ *)
(** ** Exceptions and results *)

Inductive exn : Type :=
| ValueError (msg : string)
| TypeError (msg : string)
| FileNotFoundError (msg : string)
| IndexError (msg : string)
| JSONDecodeError (msg : string)      (* a subclass of ValueError *)
| RuntimeError (msg : string)         (* torch *)
| OSError (msg : string).             (* PIL decode failures *)

(** [isinstance(e, ValueError)]. *)
Definition is_value_error (e : exn) : bool :=
  match e with
  | ValueError _ | JSONDecodeError _ => true
  | _ => false
  end.

Inductive result (A : Type) : Type :=
| Ok (a : A)
| Raise (e : exn).

Arguments Ok {A} a.
Arguments Raise {A} e.

Definition bind {A B : Type} (c : result A) (k : A -> result B) : result B :=
  match c with
  | Ok a => k a
  | Raise e => Raise e
  end.

Notation "x <- c ;; k" := (bind c (fun x => k))
  (at level 61, c at next level, right associativity).

(** A comprehension or a [for] loop over a call that may raise: elements are
    visited left to right and the first exception ends the loop. *)
Fixpoint mapM {A B : Type} (f : A -> result B) (l : list A) : result (list B) :=
  match l with
  | [] => Ok []
  | a :: l' => b <- f a ;; bs <- mapM f l' ;; Ok (b :: bs)
  end.

(** [l[i]] on a Python list. *)
Definition py_index {A : Type} (l : list A) (i : nat) : result A :=
  match nth_error l i with
  | Some a => Ok a
  | None => Raise (IndexError "list index out of range")
  end.

(* ------------------------------------------------------------------ *)
(** ** Values the widget can deliver *)

(** The host hands the node what the front end serialised, so an input is a
    JSON-shaped Python value.  A float is kept as the decimal literal that
    denotes it; the loader never computes with one. *)
#[warnings="-register-all"]
Inductive pyvalue : Type :=
| PyNone
| PyBool (b : bool)
| PyInt (z : Z)
| PyFloat (literal : string)
| PyStr (s : string)
| PyList (items : list pyvalue)
| PyDict (entries : list (string * pyvalue)).

(** [format(type(v))], as an f-string renders [{type(v)}]. *)
Definition py_type_repr (v : pyvalue) : string :=
  match v with
  | PyNone => "<class 'NoneType'>"
  | PyBool _ => "<class 'bool'>"
  | PyInt _ => "<class 'int'>"
  | PyFloat _ => "<class 'float'>"
  | PyStr _ => "<class 'str'>"
  | PyList _ => "<class 'list'>"
  | PyDict _ => "<class 'dict'>"
  end.

(* ------------------------------------------------------------------ *)
(** ** String built-ins *)

(** [str.isspace] on one character of the range U+0000..U+00FF. *)
Definition is_space (c : ascii) : bool :=
  let n := nat_of_ascii c in
  (((9 <=? n) && (n <=? 13)) || ((28 <=? n) && (n <=? 32))
   || (n =? 133) || (n =? 160))%nat.

Fixpoint lstrip (s : string) : string :=
  match s with
  | EmptyString => EmptyString
  | String c s' => if is_space c then lstrip s' else s
  end.

Fixpoint rstrip (s : string) : string :=
  match s with
  | EmptyString => EmptyString
  | String c s' =>
      match rstrip s' with
      | EmptyString => if is_space c then EmptyString else String c EmptyString
      | r => String c r
      end
  end.

(** [s.strip()]. *)
Definition py_strip (s : string) : string := rstrip (lstrip s).

(** [s.startswith(p)]. *)
Definition startswith (s p : string) : bool := prefix p s.

(** [s.endswith(p)]. *)
Definition endswith (s p : string) : bool :=
  (String.length p <=? String.length s)%nat
  && String.eqb (substring (String.length s - String.length p) (String.length p) s) p.

(** [x in s] for two strings. *)
Definition Infix (x s : string) : Prop :=
  exists pre post, s = pre ++ x ++ post.

Fixpoint infixb (x s : string) : bool :=
  prefix x s ||
  match s with
  | EmptyString => false
  | String _ s' => infixb x s'
  end.

(* ------------------------------------------------------------------ *)
(** ** binary32, arrays and tensors *)

(** A numpy [float32]: an IEEE 754 value of 24 bits of precision. *)
Definition f32 : Type := spec_float.

Definition f32_prec : Z := 24.
Definition f32_emax : Z := 128.

Definition f32_of_Z (z : Z) : f32 := binary_normalize f32_prec f32_emax z 0 false.
Definition f32_div (x y : f32) : f32 := SFdiv f32_prec f32_emax x y.
Definition f32_leb (x y : f32) : bool := SFleb x y.
Definition f32_valid (x : f32) : bool := valid_binary f32_prec f32_emax x.

(** [uint8 -> float32], the cast [astype(np.float32)] performs on one
    element; every byte is exactly representable. *)
Definition f32_of_u8 (b : byte) : f32 := f32_of_Z (Z.of_N (Byte.to_N b)).

(** The Python float [255.0] as numpy uses it against a float32 array. *)
Definition f32_255 : f32 := f32_of_Z 255.

(** An n-dimensional array: its shape and its elements in row-major order. *)
Record ndarray (A : Type) : Type := mkArray {
  a_shape : list nat;
  a_data : list A
}.

(** [arr.astype(np.float32)]. *)
Definition astype_f32 (arr : ndarray byte) : ndarray f32 :=
  mkArray (a_shape arr) (map f32_of_u8 (a_data arr)).

(** [arr / 255.0], elementwise, in float32. *)
Definition div_scalar (arr : ndarray f32) (d : f32) : ndarray f32 :=
  mkArray (a_shape arr) (map (fun x => f32_div x d) (a_data arr)).

Record tensor : Type := mkTensor {
  t_shape : list nat;
  t_data : list f32
}.

(** [torch.from_numpy(arr)]. *)
Definition from_numpy (arr : ndarray f32) : tensor :=
  mkTensor (a_shape arr) (a_data arr).

(** [t.unsqueeze(0)]. *)
Definition unsqueeze0 (t : tensor) : tensor :=
  mkTensor (1 :: t_shape t) (t_data t).

Definition shape_eqb (s1 s2 : list nat) : bool :=
  if list_eq_dec Nat.eq_dec s1 s2 then true else false.

(** [torch.cat(ts, dim=0)]: the list must not be empty and the tensors must
    agree on every dimension but the first; the result stacks them in list
    order.  (torch also skips legacy empty 1-d tensors; the loader never
    builds one.) *)
Definition torch_cat (ts : list tensor) : result tensor :=
  match ts with
  | [] => Raise (RuntimeError "torch.cat(): expected a non-empty list of Tensors")
  | t0 :: rest =>
      match t_shape t0 with
      | [] => Raise (RuntimeError "zero-dimensional tensor cannot be concatenated")
      | _ :: tl0 =>
          if forallb (fun t => match t_shape t with
                               | [] => false
                               | _ :: tl => shape_eqb tl tl0
                               end) rest
          then Ok (mkTensor (list_sum (map (fun t => hd 0 (t_shape t)) ts) :: tl0)
                            (List.concat (map t_data ts)))
          else Raise (RuntimeError "Sizes of tensors must match except in dimension 0")
      end
  end.

(** [t[i:i+1]] along the first dimension, [None] when [i] is out of range
    (Python would give an empty slice there). *)
Definition batch_slice (t : tensor) (i : nat) : option tensor :=
  match t_shape t with
  | [] => None
  | n :: tl =>
      if (i <? n)%nat
      then let k := fold_right Nat.mul 1 tl in
           Some (mkTensor (1 :: tl) (firstn k (skipn (i * k) (t_data t))))
      else None
  end.

(* ------------------------------------------------------------------ *)
(** ** The collaborators *)

(** [Image.Resampling]. *)
Inductive Resampling : Type := NEAREST | BILINEAR | BICUBIC | LANCZOS.

(** Everything the loader calls but does not define.  The filesystem is the
    one the call sees; nothing in the loader writes to it.

    [Image_open] is [Image.open] as line 114 calls it: it reads the header
    only and raises what that call raises (a file that is no image, a file
    that cannot be read).  The pixels are read later, at the first
    [convert] of line 22, reached from line 117 once the loop has visited
    every name.  The images of the model are those whose pixels can be
    read, so [convert], [resize] and [np.array] are total; a run in which a
    file passes [Image.open] and fails when its pixels are read is not
    described, neither at [Image_open] nor later. *)
Record Lib : Type := mkLib {
  image : Type;                                        (* PIL.Image.Image *)
  (* folder_paths *)
  get_annotated_filepath : string -> string;
  get_input_directory : string;
  (* os.path *)
  path_exists : string -> bool;
  path_join : string -> string -> string;
  (* json and the built-in str() *)
  json_loads : string -> result pyvalue;
  py_format : pyvalue -> string;
  (* PIL and numpy *)
  Image_open : string -> result image;
  image_size : image -> nat * nat;                     (* (width, height) *)
  image_convert_rgb : image -> image;                  (* img.convert("RGB") *)
  image_resize : image -> nat * nat -> Resampling -> image;
  np_array : image -> ndarray byte
}.

(** What PIL and numpy document and the loader depends on. *)
Record LibLaws (L : Lib) : Prop := mkLaws {
  convert_keeps_size :
    forall i : image L, image_size L (image_convert_rgb L i) = image_size L i;
  resize_gives_size :
    forall (i : image L) wh r, image_size L (image_resize L i wh r) = wh;
  rgb_array_shape :
    forall i : image L,
      a_shape (np_array L (image_convert_rgb L i))
      = [snd (image_size L i); fst (image_size L i); 3];
  rgb_array_length :
    forall i : image L,
      List.length (a_data (np_array L (image_convert_rgb L i)))
      = snd (image_size L i) * fst (image_size L i) * 3
}.

(** An argument of [pil_to_comfy_tensor]: an image, or anything else. *)
Inductive pyobj (L : Lib) : Type :=
| ObjImage (i : image L)
| ObjValue (v : pyvalue).

Arguments ObjImage {L} i.
Arguments ObjValue {L} v.

(* ------------------------------------------------------------------ *)
(** ** multi_image_loader.py *)

(** [d.get(k, default)] on a dict literal with distinct keys. *)
Definition dict_get {V : Type} (d : list (string * V)) (k : string) (default : V) : V :=
  match find (fun kv => String.eqb (fst kv) k) d with
  | Some kv => snd kv
  | None => default
  end.

(** The dict literal of [resize_pil] (lines 32-37). *)
Definition resample_table : list (string * Resampling) :=
  [("nearest", NEAREST); ("bilinear", BILINEAR);
   ("bicubic", BICUBIC); ("lanczos", LANCZOS)].

(** The list, when the value is a list whose items are all [str]:
    [isinstance(images, list) and all(isinstance(x, str) for x in images)]. *)
Fixpoint all_str (xs : list pyvalue) : option (list string) :=
  match xs with
  | [] => Some []
  | PyStr s :: rest => option_map (cons s) (all_str rest)
  | _ :: _ => None
  end.

Definition as_str_list (v : pyvalue) : option (list string) :=
  match v with
  | PyList xs => all_str xs
  | _ => None
  end.

Definition hw_eq_dec (a b : nat * nat) : {a = b} + {a <> b}.
Proof. decide equality; apply Nat.eq_dec. Defined.

(** [(t.shape[1], t.shape[2])]. *)
Definition shape_hw (t : tensor) : result (nat * nat) :=
  h <- py_index (t_shape t) 1 ;;
  w <- py_index (t_shape t) 2 ;;
  Ok (h, w).

Definition size_mismatch_message : string :=
  "Images have different sizes; enable resize_to_first=True " ++
  "or use the image_list output.".

Section Loader.

Variable L : Lib.

(** Lines 22-25: the conversion once the argument is known to be an image. *)
Definition image_tensor (img : image L) : tensor :=
  let img := image_convert_rgb L img in
  let arr := div_scalar (astype_f32 (np_array L img)) f32_255 in
  let t := from_numpy arr in
  unsqueeze0 t.

(** Lines 12-25.  The only failure written here is the type check; on an
    image the pixels are readable by the convention of [Lib]. *)
Definition pil_to_comfy_tensor (img : pyobj L) : result tensor :=
  match img with
  | ObjValue v =>
      Raise (TypeError ("Expected PIL.Image.Image, got " ++ py_type_repr v))
  | ObjImage i => Ok (image_tensor i)
  end.

(** Lines 28-38. *)
Definition resize_pil (img : image L) (size_wh : nat * nat) (mode : string) : image L :=
  let resample := dict_get resample_table mode LANCZOS in
  image_resize L img size_wh resample.

(** Lines 85-97: the value of [images] after the string handling. *)
Definition parse_images (images : pyvalue) : result pyvalue :=
  match images with
  | PyNone => Raise (ValueError "No images provided.")
  | PyStr str =>
      let s := py_strip str in
      if startswith s "[" && endswith s "]"
      then json_loads L s
      else Ok (PyList [PyStr str])
  | other => Ok other
  end.

(** Lines 99-100. *)
Definition check_images (images : pyvalue) : result (list string) :=
  match as_str_list images with
  | Some names => Ok names
  | None =>
      Raise (TypeError ("`images` must be a list[str] (or JSON string). Got: "
                        ++ py_type_repr images ++ " " ++ py_format L images))
  end.

(** Lines 85-100: the input normaliser. *)
Definition normalize_images (images : pyvalue) : result (list string) :=
  images <- parse_images images ;;
  check_images images.

(** Lines 105-112: the path one filename is opened from. *)
Definition resolve_path (name : string) : result string :=
  let img_path := get_annotated_filepath L name in
  if negb (path_exists L img_path)
  then
    let img_path2 := path_join L (get_input_directory L) name in
    if path_exists L img_path2
    then Ok img_path2
    else Raise (FileNotFoundError
                  ("Image not found: " ++ name ++ " (looked for " ++ img_path ++ ")"))
  else Ok img_path.

(** One turn of the loop of lines 104-114: the resolver, then [Image.open],
    which does not read the pixels yet. *)
Definition open_image (name : string) : result (image L) :=
  img_path <- resolve_path name ;;
  Image_open L img_path.

(** Lines 119-136. *)
Definition build_batch (pil_images : list (image L)) (image_list : list tensor)
    (resize_to_first : bool) (resize_mode : string) : result tensor :=
  if (List.length pil_images =? 1)%nat
  then py_index image_list 0
  else
    if resize_to_first
    then
      img0 <- py_index pil_images 0 ;;
      let '(w0, h0) := image_size L img0 in
      let resized := map (fun img => resize_pil img (w0, h0) resize_mode) pil_images in
      batch_tensors <- mapM (fun img => pil_to_comfy_tensor (ObjImage img)) resized ;;
      torch_cat batch_tensors
    else
      shapes <- mapM shape_hw image_list ;;
      if negb (List.length (nodup hw_eq_dec shapes) =? 1)%nat
      then Raise (ValueError size_mismatch_message)
      else torch_cat image_list.

(** Lines 76-138. *)
Definition load (images : pyvalue) (resize_to_first : bool) (resize_mode : string)
  : result (tensor * list tensor * list string) :=
  images <- normalize_images images ;;
  pil_images <- mapM open_image images ;;
  image_list <- mapM (fun img => pil_to_comfy_tensor (ObjImage img)) pil_images ;;
  image_batch <- build_batch pil_images image_list resize_to_first resize_mode ;;
  Ok (image_batch, image_list, images).

End Loader.

(* ------------------------------------------------------------------ *)
(** ** A reference [json.loads] *)

(** The grammar the Python decoder accepts (RFC 8259 plus [NaN] and the
    infinities), read over the characters of the model.  Escapes above
    U+00FF name characters a [string] cannot hold and are refused; error
    messages are not reproduced.  [Lib] carries [json_loads] as a field, so
    nothing proved for every [Lib] depends on this parser. *)
Module Json.

Definition code (c : ascii) : nat := nat_of_ascii c.

Definition is_ws (c : ascii) : bool :=
  ((code c =? 32) || (code c =? 9) || (code c =? 10) || (code c =? 13))%nat.

Fixpoint skip_ws (cs : list ascii) : list ascii :=
  match cs with
  | c :: rest => if is_ws c then skip_ws rest else cs
  | [] => []
  end.

Definition is_digit (c : ascii) : bool := ((48 <=? code c) && (code c <=? 57))%nat.

Fixpoint take_digits (cs : list ascii) : list ascii * list ascii :=
  match cs with
  | c :: rest =>
      if is_digit c
      then let '(ds, r) := take_digits rest in (c :: ds, r)
      else ([], cs)
  | [] => ([], [])
  end.

Definition digits_value (ds : list ascii) : Z :=
  fold_left (fun acc c => (10 * acc + Z.of_nat (code c - 48))%Z) ds 0%Z.

Definition hex_value (c : ascii) : option nat :=
  let n := code c in
  if ((48 <=? n) && (n <=? 57))%nat then Some (n - 48)
  else if ((65 <=? n) && (n <=? 70))%nat then Some (n - 55)
  else if ((97 <=? n) && (n <=? 102))%nat then Some (n - 87)
  else None.

Definition hex4 (a b c d : ascii) : option nat :=
  match hex_value a, hex_value b, hex_value c, hex_value d with
  | Some x, Some y, Some z, Some w => Some (((x * 16 + y) * 16 + z) * 16 + w)
  | _, _, _, _ => None
  end.

Definition simple_escape (c : ascii) : option ascii :=
  match code c with
  | 34 => Some c                       (* quote *)
  | 92 => Some c                       (* backslash *)
  | 47 => Some c                       (* slash *)
  | 98 => Some (ascii_of_nat 8)        (* backspace *)
  | 102 => Some (ascii_of_nat 12)      (* form feed *)
  | 110 => Some (ascii_of_nat 10)      (* newline *)
  | 114 => Some (ascii_of_nat 13)      (* carriage return *)
  | 116 => Some (ascii_of_nat 9)       (* tab *)
  | _ => None
  end.

(** The characters after an opening quote, up to the closing one. *)
Fixpoint scan_string (cs : list ascii) (acc : list ascii)
  : option (string * list ascii) :=
  match cs with
  | [] => None
  | c :: rest =>
      if (code c =? 34)%nat then Some (string_of_list_ascii (rev acc), rest)
      else if (code c =? 92)%nat then
        match rest with
        | [] => None
        | e :: rest' =>
            if (code e =? 117)%nat then
              match rest' with
              | h1 :: h2 :: h3 :: h4 :: rest'' =>
                  match hex4 h1 h2 h3 h4 with
                  | Some n =>
                      if (n <? 256)%nat
                      then scan_string rest'' (ascii_of_nat n :: acc)
                      else None
                  | None => None
                  end
              | _ => None
              end
            else
              match simple_escape e with
              | Some x => scan_string rest' (x :: acc)
              | None => None
              end
        end
      else if (code c <? 32)%nat then None
      else scan_string rest (c :: acc)
  end.

(** A number: an optional minus, an integer part without leading zeros,
    an optional fraction, an optional exponent; the longest match. *)
Definition scan_number (cs : list ascii) : option (pyvalue * list ascii) :=
  let '(neg, cs1) :=
    match cs with
    | c :: r => if (code c =? 45)%nat then (true, r) else (false, cs)
    | [] => (false, cs)
    end in
  let int_part :=
    match cs1 with
    | c :: r =>
        if (code c =? 48)%nat then Some ([c], r)
        else if is_digit c then Some (take_digits cs1)
        else None
    | [] => None
    end in
  match int_part with
  | None => None
  | Some (ds, r1) =>
      let '(frac, r2) :=
        match r1 with
        | dot :: d :: _ =>
            if ((code dot =? 46) && is_digit d)%nat
            then let '(fs, r) := take_digits (tl r1) in (dot :: fs, r)
            else ([], r1)
        | _ => ([], r1)
        end in
      let '(expo, r3) :=
        match r2 with
        | e :: r =>
            if ((code e =? 101) || (code e =? 69))%nat then
              let '(sign, r') :=
                match r with
                | sg :: r'' =>
                    if ((code sg =? 43) || (code sg =? 45))%nat
                    then ([sg], r'') else ([], r)
                | [] => ([], r)
                end in
              match take_digits r' with
              | ([], _) => ([], r2)
              | (es, r'') => ((e :: sign) ++ es, r'')%list
              end
            else ([], r2)
        | [] => ([], r2)
        end in
      match frac, expo with
      | [], [] =>
          let v := digits_value ds in
          Some (PyInt (if neg then (- v)%Z else v), r3)
      | _, _ =>
          let text := ((if neg then ["-"%char] else []) ++ ds ++ frac ++ expo)%list in
          Some (PyFloat (string_of_list_ascii text), r3)
      end
  end.

Fixpoint strip_prefix (p cs : list ascii) : option (list ascii) :=
  match p, cs with
  | [], _ => Some cs
  | a :: p', c :: cs' => if Ascii.eqb a c then strip_prefix p' cs' else None
  | _ :: _, [] => None
  end.

Definition keyword (w : string) (v : pyvalue) (cs : list ascii)
  : option (pyvalue * list ascii) :=
  option_map (fun r => (v, r)) (strip_prefix (list_ascii_of_string w) cs).

(** Python dicts keep one entry per key: a repeated key updates in place. *)
Fixpoint dict_set (d : list (string * pyvalue)) (k : string) (v : pyvalue)
  : list (string * pyvalue) :=
  match d with
  | [] => [(k, v)]
  | (k', v') :: d' =>
      if String.eqb k' k then (k, v) :: d' else (k', v') :: dict_set d' k v
  end.

Section Containers.

Variable scan_once : list ascii -> option (pyvalue * list ascii).

(** The loop of [JSONArray], entered after the opening bracket and any whitespace. *)
Fixpoint scan_items (n : nat) (acc : list pyvalue) (cs : list ascii)
  : option (pyvalue * list ascii) :=
  match n with
  | O => None
  | S n' =>
      match scan_once cs with
      | None => None
      | Some (v, rest) =>
          match skip_ws rest with
          | c :: rest' =>
              if (code c =? 93)%nat then Some (PyList (rev (v :: acc)), rest')
              else if (code c =? 44)%nat then scan_items n' (v :: acc) (skip_ws rest')
              else None
          | [] => None
          end
      end
  end.

(** The loop of [JSONObject], entered at the quote that opens a key. *)
Fixpoint scan_members (n : nat) (acc : list (string * pyvalue)) (cs : list ascii)
  : option (pyvalue * list ascii) :=
  match n with
  | O => None
  | S n' =>
      match cs with
      | q :: body =>
          if (code q =? 34)%nat then
            match scan_string body [] with
            | None => None
            | Some (key, rest) =>
                match skip_ws rest with
                | colon :: rest1 =>
                    if (code colon =? 58)%nat then
                      match scan_once (skip_ws rest1) with
                      | None => None
                      | Some (v, rest2) =>
                          match skip_ws rest2 with
                          | c :: rest3 =>
                              if (code c =? 125)%nat
                              then Some (PyDict (dict_set acc key v), rest3)
                              else if (code c =? 44)%nat
                              then scan_members n' (dict_set acc key v) (skip_ws rest3)
                              else None
                          | [] => None
                          end
                      end
                    else None
                | [] => None
                end
            end
          else None
      | [] => None
      end
  end.

End Containers.

(** [scan_once]: one value at the head of [cs].  The fuel bounds the
    nesting depth and the number of items; the length of the text is
    always enough. *)
Fixpoint scan_value (fuel : nat) (cs : list ascii) : option (pyvalue * list ascii) :=
  match fuel with
  | O => None
  | S fuel' =>
      match cs with
      | [] => None
      | c :: rest =>
          if (code c =? 34)%nat then
            option_map (fun sr => (PyStr (fst sr), snd sr)) (scan_string rest [])
          else if (code c =? 123)%nat then
            match skip_ws rest with
            | c' :: rest' =>
                if (code c' =? 125)%nat then Some (PyDict [], rest')
                else scan_members (scan_value fuel') fuel' [] (c' :: rest')
            | [] => None
            end
          else if (code c =? 91)%nat then
            match skip_ws rest with
            | c' :: rest' =>
                if (code c' =? 93)%nat then Some (PyList [], rest')
                else scan_items (scan_value fuel') fuel' [] (c' :: rest')
            | [] => None
            end
          else
            match keyword "null" PyNone cs with Some r => Some r | None =>
            match keyword "true" (PyBool true) cs with Some r => Some r | None =>
            match keyword "false" (PyBool false) cs with Some r => Some r | None =>
            match scan_number cs with Some r => Some r | None =>
            match keyword "NaN" (PyFloat "nan") cs with Some r => Some r | None =>
            match keyword "Infinity" (PyFloat "inf") cs with Some r => Some r | None =>
            keyword "-Infinity" (PyFloat "-inf") cs
            end end end end end end
      end
  end.

(** [json.loads(s)]: one value, whitespace around it, nothing else. *)
Definition loads (s : string) : result pyvalue :=
  let cs := list_ascii_of_string s in
  match scan_value (S (List.length cs)) (skip_ws cs) with
  | Some (v, rest) =>
      match skip_ws rest with
      | [] => Ok v
      | _ :: _ => Raise (JSONDecodeError "Extra data")
      end
  | None => Raise (JSONDecodeError "Expecting value")
  end.

End Json.

(* ------------------------------------------------------------------ *)
(** ** A small installation to run the loader on *)

(** A host with three directories and four files, images as plain RGB
    rasters, and nearest-neighbour sampling standing in for every PIL
    filter.  It shows that [LibLaws] can be met and gives the theorems
    below concrete runs. *)
Module Fixture.

Record raster : Type := mkRaster {
  r_width : nat;
  r_height : nat;
  r_bytes : list byte
}.

(** Exactly [n] bytes: the raster's own, cut or padded with zeros. *)
Definition exactly (n : nat) (bs : list byte) : list byte :=
  firstn n (bs ++ repeat x00 n).

Definition unpack (r : raster) : ndarray byte :=
  mkArray [r_height r; r_width r; 3]
          (exactly (r_height r * r_width r * 3) (r_bytes r)).

Definition sample (r : raster) (wh : nat * nat) (_ : Resampling) : raster :=
  let '(w, h) := wh in
  mkRaster w h
    (flat_map (fun y =>
       flat_map (fun x =>
         let o := ((y * r_height r / h) * r_width r + x * r_width r / w) * 3 in
         [nth o (r_bytes r) x00; nth (o + 1) (r_bytes r) x00; nth (o + 2) (r_bytes r) x00])
       (seq 0 w))
     (seq 0 h)).

Definition solid (w h : nat) (r g b : byte) : raster :=
  mkRaster w h (List.concat (repeat [r; g; b] (w * h))).

Definition files : list (string * raster) :=
  [("/comfy/input/red.png", solid 2 2 xff x00 x00);
   ("/comfy/input/wide.png", solid 3 1 x00 x80 xff);
   ("/comfy/input/shot [output]", solid 2 2 x10 x20 x30);
   ("/comfy/output/out.png", solid 1 2 x33 x66 x99)].

Definition lookup (path : string) : option raster :=
  option_map snd (find (fun f => String.eqb (fst f) path) files).

Definition exists_ (path : string) : bool :=
  match lookup path with Some _ => true | None => false end.

Definition open_ (path : string) : result raster :=
  match lookup path with
  | Some r => Ok r
  | None => Raise (FileNotFoundError ("No such file or directory: " ++ path))
  end.

(** [posixpath.join] of two components. *)
Definition join (a b : string) : string :=
  if startswith b "/" then b
  else if String.eqb a EmptyString || endswith a "/" then a ++ b
  else a ++ "/" ++ b.

Definition input_directory : string := "/comfy/input".
Definition output_directory : string := "/comfy/output".
Definition temp_directory : string := "/comfy/temp".

(** [name[:-k]]. *)
Definition drop_last (k : nat) (name : string) : string :=
  substring 0 (String.length name - k) name.

(** The host's [get_annotated_filepath]: a trailing directory tag selects
    the base directory and is cut off, the space before it included. *)
Definition annotated_filepath (name : string) : string :=
  if endswith name "[output]" then join output_directory (drop_last 9 name)
  else if endswith name "[input]" then join input_directory (drop_last 8 name)
  else if endswith name "[temp]" then join temp_directory (drop_last 7 name)
  else join input_directory name.

(** [str(v)] for the values whose rendering needs no number formatting. *)
Fixpoint repr (v : pyvalue) : string :=
  match v with
  | PyNone => "None"
  | PyBool true => "True"
  | PyBool false => "False"
  | PyInt z => NilZero.string_of_int (Z.to_int z)
  | PyFloat literal => literal
  | PyStr s => "'" ++ s ++ "'"
  | PyList items => "[" ++ String.concat ", " (map repr items) ++ "]"
  | PyDict entries =>
      "{" ++ String.concat ", "
               (map (fun kv => match kv with
                               | (k, x) => "'" ++ k ++ "': " ++ repr x
                               end) entries) ++ "}"
  end.

Definition lib : Lib :=
  {| image := raster;
     get_annotated_filepath := annotated_filepath;
     get_input_directory := input_directory;
     path_exists := exists_;
     path_join := join;
     json_loads := Json.loads;
     py_format := repr;
     Image_open := open_;
     image_size := fun r => (r_width r, r_height r);
     image_convert_rgb := fun r => r;
     image_resize := sample;
     np_array := unpack |}.

End Fixture.

(** The bytes of an image once it is in RGB: what [np.array] reads. *)
Definition rgb_channels (L : Lib) (img : image L) : list byte :=
  a_data (np_array L (image_convert_rgb L img)).

(** [(height, width)] of an image, the order tensors use. *)
Definition image_hw (L : Lib) (img : image L) : nat * nat :=
  (snd (image_size L img), fst (image_size L img)).

(** The second place a filename is looked for (line 108). *)
Definition fallback_path (L : Lib) (name : string) : string :=
  path_join L (get_input_directory L) name.

(** A JSON string literal for a text without quotes or backslashes. *)
Definition quoted (s : string) : string :=
  String (ascii_of_nat 34) s ++ String (ascii_of_nat 34) EmptyString.

(** The JSON text of the array of the two names a.png and b.png. *)
Definition two_names_json : string :=
  "[" ++ quoted "a.png" ++ "," ++ quoted "b.png" ++ "]".

(** All images have one (height, width). *)
Definition same_sizes (L : Lib) (imgs : list (image L)) : Prop :=
  forall i j, In i imgs -> In j imgs -> image_hw L i = image_hw L j.

(** The image behind one slice of the batch: the opened image itself when
    there is one image or no resizing, else that image resized to the size
    of the first. *)
Definition batch_source (L : Lib) (imgs : list (image L)) (resize_to_first : bool)
    (resize_mode : string) (img : image L) : image L :=
  match imgs with
  | img0 :: _ :: _ =>
      if resize_to_first
      then resize_pil L img (image_size L img0) resize_mode
      else img
  | _ => img
  end.

(** One pixel colour repeated over [n] pixels. *)
Definition solid_pixels {A : Type} (r g b : A) (n : nat) : list A :=
  List.concat (repeat [r; g; b] n).

(** A binary32 value of the closed interval from 0 to 1. *)
Definition in_unit_interval (x : f32) : Prop :=
  f32_valid x = true
  /\ f32_leb (f32_of_Z 0) x = true
  /\ f32_leb x (f32_of_Z 1) = true.

(** The quotient the converter stores for a channel byte. *)
Definition scaled (c : byte) : f32 := f32_div (f32_of_u8 c) f32_255.

(* ------------------------------------------------------------------ *)
(** ** The node declaration *)

(** One entry of the dict [INPUT_TYPES] returns: a type name or a list of
    choices, followed by the options dict when there is one. *)
Inductive widget : Type :=
| Typed (type_name : string) (options : list (string * pyvalue))
| Combo (choices : list string) (options : list (string * pyvalue)).

(** Lines 50-62. *)
Definition INPUT_TYPES : list (string * list (string * widget)) :=
  [("required",
    [("images", Typed "MULTI_IMAGE_UPLOAD" []);
     ("resize_to_first", Typed "BOOLEAN" [("default", PyBool true)]);
     ("resize_mode",
      Combo ["nearest"; "bilinear"; "bicubic"; "lanczos"]
            [("default", PyStr "lanczos")])])].

(** [INPUT_TYPES()["required"][name]], when both keys are present. *)
Definition required_input (name : string) : option widget :=
  match find (fun kv => String.eqb (fst kv) "required") INPUT_TYPES with
  | Some section =>
      option_map snd (find (fun kv => String.eqb (fst kv) name) (snd section))
  | None => None
  end.

(** The choices a combo input offers and the default it declares. *)
Definition offered_choices (w : option widget) : list string :=
  match w with
  | Some (Combo choices _) => choices
  | _ => []
  end.

Definition declared_default (w : option widget) : option pyvalue :=
  match w with
  | Some (Typed _ options) | Some (Combo _ options) =>
      option_map snd (find (fun kv => String.eqb (fst kv) "default") options)
  | None => None
  end.

(** A tensor in the host's IMAGE layout: four dimensions, three channels
    last, and as many values as the shape announces. *)
Definition image_layout (t : tensor) : Prop :=
  List.length (t_shape t) = 4
  /\ nth 3 (t_shape t) 0 = 3
  /\ List.length (t_data t) = fold_right Nat.mul 1 (t_shape t).

(* ------------------------------------------------------------------ *)
(** ** Auxiliary facts *)

(** *** Strings *)

Lemma append_assoc (a b c : string) : (a ++ b) ++ c = a ++ b ++ c.
Proof. induction a as [|x a IH]; simpl; [reflexivity | now rewrite IH]. Qed.

Lemma append_empty_r (a : string) : a ++ EmptyString = a.
Proof. induction a as [|x a IH]; simpl; [reflexivity | now rewrite IH]. Qed.

Lemma Infix_refl (x : string) : Infix x x.
Proof. exists EmptyString, EmptyString. simpl. now rewrite append_empty_r. Qed.

Lemma Infix_here (x post : string) : Infix x (x ++ post).
Proof. exists EmptyString, post. reflexivity. Qed.

Lemma Infix_later (x pre s : string) : Infix x s -> Infix x (pre ++ s).
Proof.
  intros (p & q & ->). exists (pre ++ p), q. now rewrite append_assoc.
Qed.

Lemma prefix_append (x post : string) : prefix x (x ++ post) = true.
Proof.
  induction x as [|c x IH]; simpl.
  - now destruct post.
  - destruct (ascii_dec c c) as [_|ne]; [exact IH | now elim ne].
Qed.

(** [infixb] finds every occurrence [Infix] allows. *)
Lemma Infix_infixb (x s : string) : Infix x s -> infixb x s = true.
Proof.
  intros (pre & post & ->). induction pre as [|c pre IH].
  - generalize (prefix_append x post). simpl.
    destruct (x ++ post); simpl; intros ->; reflexivity.
  - simpl. rewrite IH. apply orb_true_r.
Qed.

(** *** Loops *)

Lemma mapM_pure {A B : Type} (g : A -> B) (l : list A) :
  mapM (fun a => Ok (g a)) l = Ok (map g l).
Proof. induction l as [|a l IH]; simpl; [reflexivity | now rewrite IH]. Qed.

Lemma mapM_app {A B : Type} (f : A -> result B) (l1 l2 : list A) :
  mapM f (l1 ++ l2)%list
  = (bs1 <- mapM f l1 ;; bs2 <- mapM f l2 ;; Ok (bs1 ++ bs2)%list).
Proof.
  induction l1 as [|a l1 IH]; simpl.
  - destruct (mapM f l2); reflexivity.
  - destruct (f a); simpl; [|reflexivity].
    rewrite IH. destruct (mapM f l1); simpl; [|reflexivity].
    destruct (mapM f l2); reflexivity.
Qed.

Lemma mapM_length {A B : Type} (f : A -> result B) (l : list A) (bs : list B) :
  mapM f l = Ok bs -> List.length bs = List.length l.
Proof.
  revert bs. induction l as [|a l IH]; simpl; intros bs H.
  - now inversion H.
  - destruct (f a); simpl in H; [|discriminate].
    destruct (mapM f l) eqn:E; simpl in H; [|discriminate].
    inversion H; subst. simpl. now rewrite (IH _ eq_refl).
Qed.

(** The i-th result of a loop comes from its i-th element. *)
Lemma mapM_nth_error {A B : Type} (f : A -> result B) (l : list A) (bs : list B)
    (i : nat) (a : A) :
  mapM f l = Ok bs -> nth_error l i = Some a ->
  exists b, f a = Ok b /\ nth_error bs i = Some b.
Proof.
  revert bs i. induction l as [|x l IH]; intros bs i H Hi.
  - destruct i; discriminate.
  - simpl in H. destruct (f x) eqn:Ex; simpl in H; [|discriminate].
    destruct (mapM f l) eqn:E; simpl in H; [|discriminate].
    inversion H; subst. destruct i as [|i]; simpl in *.
    + inversion Hi; subst. eauto.
    + eapply IH; eauto.
Qed.

(** *** The set of shapes *)

Lemma nodup_singleton {A : Type} (dec : forall x y : A, {x = y} + {x <> y})
    (l : list A) :
  l <> [] ->
  (List.length (nodup dec l) = 1 <-> forall x y, In x l -> In y l -> x = y).
Proof.
  intros Hne. split.
  - intros H x y Hx Hy.
    destruct (nodup dec l) as [|a [|b r]] eqn:E; try discriminate.
    apply (nodup_In dec) in Hx, Hy. rewrite E in Hx, Hy.
    destruct Hx as [<-|[]], Hy as [<-|[]]. reflexivity.
  - revert Hne. induction l as [|a l IH]; intros Hne H; [now elim Hne|].
    simpl. destruct (in_dec dec a l) as [Hin|Hout].
    + apply IH.
      * intros ->. exact Hin.
      * intros x y Hx Hy. apply H; now right.
    + destruct l as [|b l]; [reflexivity|].
        elim Hout. left. apply H; [right; now left | now left].
Qed.

(** *** Tensors *)

Lemma shape_eqb_refl (sh : list nat) : shape_eqb sh sh = true.
Proof. unfold shape_eqb. destruct (list_eq_dec Nat.eq_dec sh sh); congruence. Qed.

(** Stacking tensors that all have one row of the same shape. *)
Lemma torch_cat_uniform (tl : list nat) (ts : list tensor) :
  ts <> [] ->
  Forall (fun t => t_shape t = 1 :: tl) ts ->
  torch_cat ts
  = Ok (mkTensor (List.length ts :: tl) (List.concat (map t_data ts))).
Proof.
  intros Hne Hall. destruct ts as [|t0 rest]; [now elim Hne|].
  unfold torch_cat. inversion Hall as [|? ? H0 Hrest]; subst. rewrite H0.
  assert (Hb : forallb (fun t => match t_shape t with
                                 | [] => false
                                 | _ :: tl' => shape_eqb tl' tl
                                 end) rest = true).
  { apply forallb_forall. intros t Ht.
    rewrite Forall_forall in Hrest. rewrite (Hrest t Ht). apply shape_eqb_refl. }
  rewrite Hb.
  assert (Hsum : forall us, Forall (fun t => t_shape t = 1 :: tl) us ->
                 list_sum (map (fun t => hd 0 (t_shape t)) us) = List.length us).
  { induction 1 as [|u us Hu _ IH]; simpl; [reflexivity|].
    rewrite Hu. simpl. now rewrite IH. }
  now rewrite (Hsum _ Hall).
Qed.

(** The i-th block of a concatenation of blocks of one length. *)
Lemma concat_block {A : Type} (k : nat) (ls : list (list A)) (i : nat) (x : list A) :
  Forall (fun l => List.length l = k) ls ->
  nth_error ls i = Some x ->
  firstn k (skipn (i * k) (List.concat ls)) = x.
Proof.
  intros Hall. revert i. induction Hall as [|l ls Hl _ IH]; intros i Hi.
  - destruct i; discriminate.
  - destruct i as [|i]; simpl in *.
    + inversion Hi; subst.
      rewrite firstn_app, Nat.sub_diag, firstn_O, app_nil_r. apply firstn_all.
    + rewrite skipn_app, Hl.
      replace (k + i * k - k) with (i * k) by lia.
      rewrite skipn_all2 by lia. simpl. now apply IH.
Qed.

Lemma batch_slice_cat (tl : list nat) (ts : list tensor) (i : nat) (t : tensor) :
  Forall (fun t => t_shape t = 1 :: tl
                   /\ List.length (t_data t) = fold_right Nat.mul 1 tl) ts ->
  nth_error ts i = Some t ->
  batch_slice (mkTensor (List.length ts :: tl) (List.concat (map t_data ts))) i
  = Some t.
Proof.
  intros Hall Hi. unfold batch_slice. simpl.
  assert (Hlt : i < List.length ts) by (apply nth_error_Some; congruence).
  apply Nat.ltb_lt in Hlt. rewrite Hlt. f_equal.
  rewrite Forall_forall in Hall.
  destruct (Hall t (nth_error_In _ _ Hi)) as [Hsh _].
  destruct t as [sh d]. simpl in *. subst sh. f_equal.
  apply concat_block.
  - apply Forall_forall. intros l Hl. apply in_map_iff in Hl.
    destruct Hl as (t' & <- & Ht'). now apply Hall.
  - now rewrite nth_error_map, Hi.
Qed.

(** *** The conversion *)

(** Every byte lands on a binary32 value between 0 and 1. *)
Lemma scaled_in_unit_interval (c : byte) : in_unit_interval (scaled c).
Proof. destruct c; vm_compute; repeat split. Qed.

Section ConversionFacts.

Variable L : Lib.
Hypothesis HL : LibLaws L.

Lemma image_tensor_shape (img : image L) :
  t_shape (image_tensor L img)
  = [1; snd (image_size L img); fst (image_size L img); 3].
Proof. unfold image_tensor. simpl. now rewrite (rgb_array_shape HL). Qed.

Lemma image_tensor_data (img : image L) :
  t_data (image_tensor L img)
  = map scaled (rgb_channels L img).
Proof. unfold image_tensor. simpl. now rewrite map_map. Qed.

Lemma image_tensor_length (img : image L) :
  List.length (t_data (image_tensor L img))
  = snd (image_size L img) * fst (image_size L img) * 3.
Proof. rewrite image_tensor_data, length_map. apply (rgb_array_length HL). Qed.

Lemma shape_hw_image_tensor (img : image L) :
  shape_hw (image_tensor L img) = Ok (image_hw L img).
Proof. unfold shape_hw. rewrite image_tensor_shape. reflexivity. Qed.

Lemma mapM_shape_hw (imgs : list (image L)) :
  mapM shape_hw (map (image_tensor L) imgs) = Ok (map (image_hw L) imgs).
Proof.
  induction imgs as [|i imgs IH]; simpl; [reflexivity|].
  now rewrite shape_hw_image_tensor, IH.
Qed.

End ConversionFacts.

Lemma mapM_tensors (L : Lib) (imgs : list (image L)) :
  mapM (fun img => pil_to_comfy_tensor (ObjImage img)) imgs
  = Ok (map (image_tensor L) imgs).
Proof. apply (mapM_pure (image_tensor L)). Qed.

(** *** The fixture meets the laws *)

Lemma exactly_length (n : nat) (bs : list byte) :
  List.length (Fixture.exactly n bs) = n.
Proof.
  unfold Fixture.exactly.
  rewrite length_firstn, length_app, repeat_length. lia.
Qed.

Lemma fixture_laws : LibLaws Fixture.lib.
Proof.
  constructor; simpl.
  - reflexivity.
  - intros i [w h] r. reflexivity.
  - reflexivity.
  - intros i. apply exactly_length.
Qed.

(** *** Unfolding [load] *)

Section LoadFacts.

Variable L : Lib.

Lemma load_steps (images : pyvalue) (names : list string) (imgs : list (image L))
    (resize_to_first : bool) (resize_mode : string) :
  normalize_images L images = Ok names ->
  mapM (open_image L) names = Ok imgs ->
  load L images resize_to_first resize_mode
  = (batch <- build_batch L imgs (map (image_tensor L) imgs)
                          resize_to_first resize_mode ;;
     Ok (batch, map (image_tensor L) imgs, names)).
Proof.
  intros Hn Ho. unfold load. rewrite Hn. simpl. rewrite Ho. simpl.
  rewrite mapM_tensors. reflexivity.
Qed.

Lemma load_inv (images : pyvalue) (resize_to_first : bool) (resize_mode : string)
    (batch : tensor) (image_list : list tensor) (names : list string) :
  load L images resize_to_first resize_mode = Ok (batch, image_list, names) ->
  normalize_images L images = Ok names
  /\ exists imgs,
       mapM (open_image L) names = Ok imgs
       /\ image_list = map (image_tensor L) imgs
       /\ build_batch L imgs image_list resize_to_first resize_mode = Ok batch.
Proof.
  unfold load. intros H.
  destruct (normalize_images L images) as [ns|] eqn:Hn; simpl in H; [|discriminate].
  destruct (mapM (open_image L) ns) as [imgs|] eqn:Ho; simpl in H; [|discriminate].
  rewrite mapM_tensors in H. simpl in H.
  destruct (build_batch L imgs (map (image_tensor L) imgs) resize_to_first resize_mode)
    as [b|] eqn:Hb; simpl in H; [|discriminate].
  inversion H; subst. split; [reflexivity|]. exists imgs. auto.
Qed.

End LoadFacts.

(* ------------------------------------------------------------------ *)
(** ** The tensor converter *)

(** C6.  For a decoded image of width [w] and height [h] the converter
    returns a tensor of shape (1, h, w, 3) holding h*w*3 binary32 values;
    the value at each position is the channel byte at that position divided
    by 255.0 in binary32, and each lies between 0 and 1.  A 2x2 image of one
    colour (r, g, b) therefore yields (r/255, g/255, b/255) at every pixel,
    with batch dimension 1. *)
Theorem pil_to_comfy_tensor_image (L : Lib) (HL : LibLaws L) (img : image L) :
  exists t : tensor,
    pil_to_comfy_tensor (ObjImage img) = Ok t
    /\ t_shape t = [1; snd (image_size L img); fst (image_size L img); 3]
    /\ List.length (t_data t) = snd (image_size L img) * fst (image_size L img) * 3
    /\ t_data t = map scaled (rgb_channels L img)
    /\ Forall in_unit_interval (t_data t)
    /\ (forall r g b : byte,
          image_size L img = (2, 2) ->
          rgb_channels L img = solid_pixels r g b 4 ->
          t = mkTensor [1; 2; 2; 3]
                       (solid_pixels (scaled r) (scaled g) (scaled b) 4)).
Proof.
  exists (image_tensor L img). split; [reflexivity|].
  split; [apply (image_tensor_shape HL)|].
  split; [apply (image_tensor_length HL)|].
  split; [apply image_tensor_data|].
  split.
  - rewrite image_tensor_data. apply Forall_forall. intros x Hx.
    apply in_map_iff in Hx. destruct Hx as (c & <- & _).
    apply scaled_in_unit_interval.
  - intros r g b Hsize Hpx.
    pose proof (image_tensor_shape HL img) as Hs.
    pose proof (image_tensor_data L img) as Hd.
    destruct (image_tensor L img) as [sh d]. simpl in *.
    rewrite Hsize in Hs. simpl in Hs. rewrite Hpx in Hd. subst. reflexivity.
Qed.

Lemma pil_to_comfy_tensor_image_witness :
  LibLaws Fixture.lib
  /\ pil_to_comfy_tensor
       (ObjImage (L := Fixture.lib) (Fixture.solid 2 2 xff x80 x00))
     = Ok (mkTensor [1; 2; 2; 3]
                    (solid_pixels (scaled xff) (scaled x80) (scaled x00) 4)).
Proof.
  split; [exact fixture_laws|].
  destruct (pil_to_comfy_tensor_image (L := Fixture.lib) fixture_laws
              (Fixture.solid 2 2 xff x80 x00))
    as (t & Ht & _ & _ & _ & _ & Hsolid).
  rewrite Ht. f_equal. apply Hsolid; reflexivity.
Defined.

(* ------------------------------------------------------------------ *)
(** ** The resizer *)

(** C8.  The four mode names select the filters of the same name; any other
    mode string selects the lanczos filter, and the resizer returns the
    image PIL gives for that filter without raising. *)
Theorem resize_pil_filters (L : Lib) (img : image L) (size_wh : nat * nat) :
  resize_pil L img size_wh "nearest" = image_resize L img size_wh NEAREST
  /\ resize_pil L img size_wh "bilinear" = image_resize L img size_wh BILINEAR
  /\ resize_pil L img size_wh "bicubic" = image_resize L img size_wh BICUBIC
  /\ resize_pil L img size_wh "lanczos" = image_resize L img size_wh LANCZOS
  /\ (forall mode : string,
        mode <> "nearest" -> mode <> "bilinear" ->
        mode <> "bicubic" -> mode <> "lanczos" ->
        resize_pil L img size_wh mode = image_resize L img size_wh LANCZOS).
Proof.
  repeat split.
  intros mode H1 H2 H3 H4. unfold resize_pil, dict_get, resample_table.
  apply String.eqb_neq in H1, H2, H3, H4.
  rewrite String.eqb_sym in H1, H2, H3, H4.
  cbn [find fst]. now rewrite H1, H2, H3, H4.
Qed.

Lemma resize_pil_filters_witness :
  resize_pil Fixture.lib (Fixture.solid 2 2 xff x80 x00) (1, 1) "cubic"
  = image_resize Fixture.lib (Fixture.solid 2 2 xff x80 x00) (1, 1) LANCZOS.
Proof.
  apply (proj2 (proj2 (proj2 (proj2
           (resize_pil_filters Fixture.lib (Fixture.solid 2 2 xff x80 x00) (1, 1))))));
    discriminate.
Defined.

(* ------------------------------------------------------------------ *)
(** ** A single image *)

(** C7.  When the input normalises to exactly one filename, the call does
    what opening that file does: on success the batch is the unresized
    tensor of the image, the list output holds that same tensor and nothing
    else, and neither [resize_to_first] nor [resize_mode] has any effect. *)
Theorem single_image_batch (L : Lib) (images : pyvalue) (name : string) :
  normalize_images L images = Ok [name] ->
  (forall (resize_to_first : bool) (resize_mode : string),
     load L images resize_to_first resize_mode
     = (img <- open_image L name ;;
        Ok (image_tensor L img, [image_tensor L img], [name])))
  /\ (forall resize_to_first resize_mode batch image_list names,
        load L images resize_to_first resize_mode = Ok (batch, image_list, names) ->
        image_list = [batch] /\ names = [name]).
Proof.
  intros Hn.
  assert (Heq : forall r m,
             load L images r m
             = (img <- open_image L name ;;
                Ok (image_tensor L img, [image_tensor L img], [name]))).
  { intros r m. unfold load. rewrite Hn. simpl.
    destruct (open_image L name) as [img|e]; reflexivity. }
  split; [exact Heq|].
  intros r m b l ns H. rewrite Heq in H.
  destruct (open_image L name); simpl in H; [|discriminate].
  inversion H; subst. auto.
Qed.

Lemma single_image_batch_witness :
  normalize_images Fixture.lib (PyStr "red.png") = Ok ["red.png"]
  /\ load Fixture.lib (PyStr "red.png") true "bicubic"
     = load Fixture.lib (PyStr "red.png") false "nearest".
Proof.
  split; [reflexivity|].
  destruct (single_image_batch Fixture.lib (PyStr "red.png") (name := "red.png") eq_refl)
    as [Heq _].
  rewrite (Heq true "bicubic"), (Heq false "nearest"). reflexivity.
Defined.

(* ------------------------------------------------------------------ *)
(** ** No images *)

(** C4.  [None] is refused with the value error for missing images, but an
    empty list passes the guard: with [resize_to_first] set the call
    reaches [pil_images[0]] and ends in an index error, which is not a value
    error; with it off the call ends in the value error about image sizes. *)
Theorem load_empty_list (L : Lib) (resize_to_first : bool) (resize_mode : string) :
  load L PyNone resize_to_first resize_mode
  = Raise (ValueError "No images provided.")
  /\ load L (PyList []) true resize_mode
     = Raise (IndexError "list index out of range")
  /\ is_value_error (IndexError "list index out of range") = false
  /\ load L (PyList []) false resize_mode
     = Raise (ValueError size_mismatch_message).
Proof. repeat split. Qed.

(* ------------------------------------------------------------------ *)
(** ** Several images *)

Section BatchFacts.

Variable L : Lib.
Hypothesis HL : LibLaws L.

(** Tensors of images of one size stack into a batch of that size. *)
Lemma cat_same_size (imgs : list (image L)) (h w : nat) :
  imgs <> [] ->
  Forall (fun img => image_size L img = (w, h)) imgs ->
  torch_cat (map (image_tensor L) imgs)
  = Ok (mkTensor [List.length imgs; h; w; 3]
                 (List.concat (map (fun img => t_data (image_tensor L img)) imgs))).
Proof.
  intros Hne Hall.
  rewrite (torch_cat_uniform (tl := [h; w; 3])).
  - now rewrite length_map, map_map.
  - destruct imgs; [now elim Hne | discriminate].
  - apply Forall_forall. intros t Ht. apply in_map_iff in Ht.
    destruct Ht as (img & <- & Hin). rewrite Forall_forall in Hall.
    rewrite (image_tensor_shape HL), (Hall img Hin). reflexivity.
Qed.

End BatchFacts.

(** C1.  With two or more filenames that all open, and [resize_to_first]
    set, the call succeeds; every image, the first included, is resized to
    the (width, height) of the first image with the filter of the configured
    mode; the batch stacks the tensors of the resized images in order, so
    its shape is (N, h0, w0, 3) for the first image's original height and
    width, whatever the sizes of the others. *)
Theorem resize_to_first_batch (L : Lib) (HL : LibLaws L) (images : pyvalue)
    (names : list string) (imgs : list (image L)) (resize_mode : string) :
  normalize_images L images = Ok names ->
  2 <= List.length names ->
  mapM (open_image L) names = Ok imgs ->
  exists (img0 : image L) (batch : tensor),
    nth_error imgs 0 = Some img0
    /\ load L images true resize_mode = Ok (batch, map (image_tensor L) imgs, names)
    /\ t_shape batch
       = [List.length names; snd (image_size L img0); fst (image_size L img0); 3]
    /\ t_data batch
       = List.concat
           (map (fun img =>
                   t_data (image_tensor L
                             (resize_pil L img (image_size L img0) resize_mode)))
                imgs)
    /\ Forall (fun img =>
                 image_size L (resize_pil L img (image_size L img0) resize_mode)
                 = image_size L img0) imgs.
Proof.
  intros Hn Hlen Ho.
  pose proof (mapM_length _ _ Ho) as Hl.
  destruct imgs as [|img0 rest]; [simpl in Hl; lia|].
  exists img0.
  destruct (image_size L img0) as [w0 h0] eqn:Esize.
  pose (resized := map (fun img => resize_pil L img (w0, h0) resize_mode) (img0 :: rest)).
  assert (Hres : Forall (fun img => image_size L img = (w0, h0)) resized).
  { apply Forall_forall. intros r Hr. apply in_map_iff in Hr.
    destruct Hr as (i & <- & _). apply (resize_gives_size HL). }
  assert (Hcat := cat_same_size HL (imgs := resized) (h := h0) (w := w0)).
  eexists. split; [reflexivity|]. split; [|split; [|split]].
  - rewrite (load_steps L images true resize_mode Hn Ho). unfold build_batch.
    replace (List.length (img0 :: rest) =? 1)%nat with false
      by (symmetry; apply Nat.eqb_neq; lia).
    cbn [py_index nth_error bind]. rewrite Esize.
    rewrite mapM_tensors. cbn [bind]. fold resized.
    rewrite Hcat; [reflexivity | discriminate | exact Hres].
  - cbn [t_shape]. unfold resized. rewrite length_map, <- Hl. reflexivity.
  - cbn [t_data]. unfold resized. now rewrite map_map.
  - apply Forall_forall. intros i _. apply (resize_gives_size HL).
Qed.

Lemma resize_to_first_batch_witness :
  exists batch image_list,
    load Fixture.lib (PyList [PyStr "red.png"; PyStr "wide.png"]) true "bilinear"
    = Ok (batch, image_list, ["red.png"; "wide.png"])
    /\ t_shape batch = [2; 2; 2; 3].
Proof.
  destruct (resize_to_first_batch fixture_laws
              (PyList [PyStr "red.png"; PyStr "wide.png"])
              (names := ["red.png"; "wide.png"])
              (imgs := [Fixture.solid 2 2 xff x00 x00; Fixture.solid 3 1 x00 x80 xff])
              "bilinear" eq_refl (le_n 2) eq_refl)
    as (img0 & batch & H0 & Hload & Hshape & _).
  exists batch. eexists. split; [exact Hload|].
  injection H0 as <-. exact Hshape.
Defined.

Section NoResize.

Variable L : Lib.
Hypothesis HL : LibLaws L.

Lemma same_sizes_hw (imgs : list (image L)) :
  same_sizes L imgs <->
  (forall x y, In x (map (image_hw L) imgs) -> In y (map (image_hw L) imgs) -> x = y).
Proof.
  split.
  - intros H x y Hx Hy. apply in_map_iff in Hx, Hy.
    destruct Hx as (i & <- & Hi), Hy as (j & <- & Hj). now apply H.
  - intros H i j Hi Hj. apply H; now apply in_map.
Qed.

Lemma same_sizes_Forall (img0 : image L) (rest : list (image L)) :
  same_sizes L (img0 :: rest) ->
  Forall (fun img => image_size L img = image_size L img0) (img0 :: rest).
Proof.
  intros H. apply Forall_forall. intros i Hi.
  specialize (H i img0 Hi (or_introl eq_refl)). unfold image_hw in H.
  destruct (image_size L i), (image_size L img0). simpl in H. congruence.
Qed.

(** The branch of lines 128-136 on two or more opened images. *)
Lemma build_batch_no_resize (imgs : list (image L)) (resize_mode : string) :
  2 <= List.length imgs ->
  build_batch L imgs (map (image_tensor L) imgs) false resize_mode
  = if (List.length (nodup hw_eq_dec (map (image_hw L) imgs)) =? 1)%nat
    then torch_cat (map (image_tensor L) imgs)
    else Raise (ValueError size_mismatch_message).
Proof.
  intros Hlen. unfold build_batch.
  replace (List.length imgs =? 1)%nat with false
    by (symmetry; apply Nat.eqb_neq; lia).
  rewrite (mapM_shape_hw HL). cbn [bind].
  now destruct (List.length (nodup hw_eq_dec (map (image_hw L) imgs)) =? 1)%nat.
Qed.

End NoResize.

(** C2.  With two or more filenames that all open, and [resize_to_first]
    off: when the images do not all have the same (height, width) the call
    raises a value error and so returns no outputs, and its message tells
    the caller to enable [resize_to_first] or to use the [image_list]
    output; when they all have the same (height, width) the call succeeds
    and the batch is the per-image tensors stacked in order. *)
Theorem no_resize_batch (L : Lib) (HL : LibLaws L) (images : pyvalue)
    (names : list string) (imgs : list (image L)) (resize_mode : string) :
  normalize_images L images = Ok names ->
  2 <= List.length names ->
  mapM (open_image L) names = Ok imgs ->
  (~ same_sizes L imgs ->
     load L images false resize_mode = Raise (ValueError size_mismatch_message))
  /\ Infix "enable resize_to_first=True" size_mismatch_message
  /\ Infix "use the image_list output" size_mismatch_message
  /\ (same_sizes L imgs ->
      exists (batch : tensor) (h w : nat),
        load L images false resize_mode = Ok (batch, map (image_tensor L) imgs, names)
        /\ Forall (fun img => image_hw L img = (h, w)) imgs
        /\ t_shape batch = [List.length names; h; w; 3]
        /\ t_data batch = List.concat (map t_data (map (image_tensor L) imgs))).
Proof.
  intros Hn Hlen Ho.
  pose proof (mapM_length _ _ Ho) as Hl.
  assert (Hne : map (image_hw L) imgs <> []).
  { destruct imgs; [simpl in Hl; lia | discriminate]. }
  pose proof (nodup_singleton hw_eq_dec Hne) as Hset.
  assert (Hstep := load_steps L images false resize_mode Hn Ho).
  rewrite (build_batch_no_resize HL) in Hstep by lia.
  split; [|split; [|split]].
  - intros Hdiff. rewrite Hstep.
    destruct (List.length (nodup hw_eq_dec (map (image_hw L) imgs)) =? 1)%nat eqn:E;
      [|reflexivity].
    elim Hdiff. apply same_sizes_hw, Hset. now apply Nat.eqb_eq.
  - exists "Images have different sizes; ", " or use the image_list output.".
    reflexivity.
  - exists "Images have different sizes; enable resize_to_first=True or ", ".".
    reflexivity.
  - intros Hsame.
    assert (E : (List.length (nodup hw_eq_dec (map (image_hw L) imgs)) =? 1)%nat = true).
    { apply Nat.eqb_eq, Hset, same_sizes_hw, Hsame. }
    rewrite E in Hstep.
    destruct imgs as [|img0 rest]; [now elim Hne|].
    pose proof (same_sizes_Forall Hsame) as Hall.
    destruct (image_size L img0) as [w h] eqn:Esize.
    rewrite (cat_same_size HL (h := h) (w := w)) in Hstep by (discriminate || exact Hall).
    cbn [bind] in Hstep.
    eexists. exists h, w. split; [exact Hstep|]. split; [|split].
    + apply Forall_forall. intros i Hi. rewrite Forall_forall in Hall.
      unfold image_hw. now rewrite (Hall i Hi).
    + cbn [t_shape]. now rewrite Hl.
    + cbn [t_data]. now rewrite map_map.
Qed.

Lemma no_resize_batch_witness :
  load Fixture.lib (PyList [PyStr "red.png"; PyStr "wide.png"]) false "lanczos"
  = Raise (ValueError size_mismatch_message)
  /\ exists batch,
       load Fixture.lib (PyList [PyStr "red.png"; PyStr "shot [output]"]) false "lanczos"
       = Ok (batch,
             map (image_tensor Fixture.lib)
                 [Fixture.solid 2 2 xff x00 x00; Fixture.solid 2 2 x10 x20 x30],
             ["red.png"; "shot [output]"])
       /\ t_shape batch = [2; 2; 2; 3].
Proof.
  split.
  - apply (no_resize_batch fixture_laws
             (PyList [PyStr "red.png"; PyStr "wide.png"])
             (names := ["red.png"; "wide.png"])
             (imgs := [Fixture.solid 2 2 xff x00 x00; Fixture.solid 3 1 x00 x80 xff])
             "lanczos" eq_refl (le_n 2) eq_refl).
    intros H.
    specialize (H _ _ (or_introl eq_refl) (or_intror (or_introl eq_refl))).
    discriminate H.
  - destruct (no_resize_batch fixture_laws
                (PyList [PyStr "red.png"; PyStr "shot [output]"])
                (names := ["red.png"; "shot [output]"])
                (imgs := [Fixture.solid 2 2 xff x00 x00; Fixture.solid 2 2 x10 x20 x30])
                "lanczos" eq_refl (le_n 2) eq_refl)
      as (_ & _ & _ & Hok).
    destruct Hok as (batch & h & w & Hload & Hall & Hshape & _).
    + intros i j [<-|[<-|[]]] [<-|[<-|[]]]; reflexivity.
    + exists batch. split; [exact Hload|].
      inversion Hall as [|? ? Hhw _]; subst. injection Hhw as <- <-. exact Hshape.
Defined.

(* ------------------------------------------------------------------ *)
(** ** Path resolution *)

(** C3, as the code has it.  A filename is looked for at its annotated path
    first; when only the path under the input directory exists the file is
    opened from there and the call goes on as usual; when neither exists the
    call raises a file-not-found error whose message names the filename and
    the annotated path.  This holds for a filename at any position, once
    the files before it have opened. *)
Theorem path_resolution (L : Lib) (name : string) :
  (path_exists L (get_annotated_filepath L name) = true ->
     resolve_path L name = Ok (get_annotated_filepath L name))
  /\ (path_exists L (get_annotated_filepath L name) = false ->
      path_exists L (fallback_path L name) = true ->
        resolve_path L name = Ok (fallback_path L name)
        /\ forall img resize_to_first resize_mode,
             Image_open L (fallback_path L name) = Ok img ->
             load L (PyList [PyStr name]) resize_to_first resize_mode
             = Ok (image_tensor L img, [image_tensor L img], [name]))
  /\ (path_exists L (get_annotated_filepath L name) = false ->
      path_exists L (fallback_path L name) = false ->
        exists msg,
          resolve_path L name = Raise (FileNotFoundError msg)
          /\ Infix name msg
          /\ Infix (get_annotated_filepath L name) msg
          /\ forall images before after imgs resize_to_first resize_mode,
               normalize_images L images = Ok (before ++ name :: after)%list ->
               mapM (open_image L) before = Ok imgs ->
               load L images resize_to_first resize_mode
               = Raise (FileNotFoundError msg)).
Proof.
  unfold fallback_path. split; [|split].
  - intros H. unfold resolve_path. now rewrite H.
  - intros H1 H2.
    assert (Hr : resolve_path L name = Ok (path_join L (get_input_directory L) name)).
    { unfold resolve_path. now rewrite H1, H2. }
    split; [exact Hr|]. intros img r m Hopen.
    unfold load. cbn [normalize_images parse_images check_images as_str_list
                      all_str option_map bind mapM].
    unfold open_image. rewrite Hr. cbn [bind]. rewrite Hopen. reflexivity.
  - intros H1 H2. eexists.
    assert (Hr : resolve_path L name
                 = Raise (FileNotFoundError
                            ("Image not found: " ++ name ++ " (looked for "
                             ++ get_annotated_filepath L name ++ ")"))).
    { unfold resolve_path. now rewrite H1, H2. }
    split; [exact Hr|]. split; [|split].
    + apply Infix_later, Infix_here.
    + apply Infix_later, Infix_later, Infix_later, Infix_here.
    + intros images before after imgs r m Hn Hb.
      unfold load. rewrite Hn. cbn [bind].
      rewrite mapM_app, Hb. cbn [bind mapM].
      unfold open_image at 1. rewrite Hr. reflexivity.
Qed.

Lemma path_resolution_witness :
  resolve_path Fixture.lib "out.png [output]" = Ok "/comfy/output/out.png"
  /\ (exists img,
        load Fixture.lib (PyList [PyStr "shot [output]"]) false "nearest"
        = Ok (image_tensor Fixture.lib img, [image_tensor Fixture.lib img],
              ["shot [output]"]))
  /\ exists msg,
       load Fixture.lib (PyList [PyStr "red.png"; PyStr "ghost.png"]) true "nearest"
       = Raise (FileNotFoundError msg).
Proof.
  split; [|split].
  - destruct (path_resolution Fixture.lib "out.png [output]") as (Hfirst & _).
    exact (Hfirst eq_refl).
  - exists (Fixture.solid 2 2 x10 x20 x30).
    destruct (path_resolution Fixture.lib "shot [output]") as (_ & Hfb & _).
    destruct (Hfb eq_refl eq_refl) as [_ Hload].
    apply Hload. reflexivity.
  - destruct (path_resolution Fixture.lib "ghost.png") as (_ & _ & Hnone).
    destruct (Hnone eq_refl eq_refl) as (msg & _ & _ & _ & Hload).
    exists msg.
    apply (Hload (PyList [PyStr "red.png"; PyStr "ghost.png"]) ["red.png"] []
                 [Fixture.solid 2 2 xff x00 x00]); reflexivity.
Defined.

(** With a directory tag in the name the two paths differ, and when the
    file is at neither the message holds the annotated path alone: the path
    under the input directory does not occur in it. *)
Lemma missing_file_message_lacks_fallback :
  path_exists Fixture.lib (get_annotated_filepath Fixture.lib "ghost.png [output]") = false
  /\ path_exists Fixture.lib (fallback_path Fixture.lib "ghost.png [output]") = false
  /\ ~ (exists msg,
          load Fixture.lib (PyList [PyStr "ghost.png [output]"]) true "lanczos"
          = Raise (FileNotFoundError msg)
          /\ Infix "ghost.png [output]" msg
          /\ Infix (get_annotated_filepath Fixture.lib "ghost.png [output]") msg
          /\ Infix (fallback_path Fixture.lib "ghost.png [output]") msg).
Proof.
  split; [reflexivity|]. split; [reflexivity|].
  intros (msg & Hload & _ & _ & Hfb).
  vm_compute in Hload. injection Hload as <-.
  apply Infix_infixb in Hfb. vm_compute in Hfb. discriminate.
Qed.

(* ------------------------------------------------------------------ *)
(** ** The input normaliser *)

(** C5, as the code has it.  A string is trimmed; when the trimmed text
    starts with an opening and ends with a closing bracket it is what
    [json.loads] makes of it, so the JSON text of the array of a.png and
    b.png normalises to the same list as the list itself; any other string
    becomes the one-element list of that string as it was given, untrimmed.
    A final value that is not a list of strings raises a type error whose
    message holds the type and the rendering of that value. *)
Theorem normalizer_contract (L : Lib) :
  (forall str,
     startswith (py_strip str) "[" = true ->
     endswith (py_strip str) "]" = true ->
     normalize_images L (PyStr str)
     = (v <- json_loads L (py_strip str) ;; check_images L v))
  /\ (json_loads L two_names_json = Json.loads two_names_json ->
      normalize_images L (PyStr two_names_json) = Ok ["a.png"; "b.png"]
      /\ normalize_images L (PyStr two_names_json)
         = normalize_images L (PyList [PyStr "a.png"; PyStr "b.png"]))
  /\ (forall str,
        startswith (py_strip str) "[" && endswith (py_strip str) "]" = false ->
        normalize_images L (PyStr str) = Ok [str])
  /\ (forall images v,
        parse_images L images = Ok v ->
        as_str_list v = None ->
        exists msg,
          normalize_images L images = Raise (TypeError msg)
          /\ Infix (py_type_repr v) msg
          /\ Infix (py_format L v) msg).
Proof.
  split; [|split; [|split]].
  - intros str H1 H2. unfold normalize_images, parse_images. now rewrite H1, H2.
  - intros Hj. split.
    + unfold normalize_images, parse_images.
      change (py_strip two_names_json) with two_names_json.
      change (startswith two_names_json "[" && endswith two_names_json "]") with true.
      cbv iota. rewrite Hj. reflexivity.
    + unfold normalize_images, parse_images.
      change (py_strip two_names_json) with two_names_json.
      change (startswith two_names_json "[" && endswith two_names_json "]") with true.
      cbv iota. rewrite Hj. reflexivity.
  - intros str H. unfold normalize_images, parse_images. rewrite H. reflexivity.
  - intros images v Hp Hv. unfold normalize_images. rewrite Hp. cbn [bind].
    unfold check_images. rewrite Hv. eexists. split; [reflexivity|]. split.
    + apply Infix_later, Infix_here.
    + apply Infix_later, Infix_later, Infix_later, Infix_refl.
Qed.

Lemma normalizer_contract_witness :
  normalize_images Fixture.lib (PyStr " [] ") = Ok []
  /\ normalize_images Fixture.lib (PyStr two_names_json)
     = normalize_images Fixture.lib (PyList [PyStr "a.png"; PyStr "b.png"])
  /\ normalize_images Fixture.lib (PyStr "red.png [input]") = Ok ["red.png [input]"]
  /\ exists msg,
       normalize_images Fixture.lib (PyList [PyStr "a.png"; PyInt 7])
       = Raise (TypeError msg)
       /\ Infix "<class 'list'>" msg
       /\ Infix "['a.png', 7]" msg.
Proof.
  destruct (normalizer_contract Fixture.lib) as (Hjson & Htwo & Hone & Htype).
  split; [|split; [|split]].
  - rewrite (Hjson " [] " eq_refl eq_refl). reflexivity.
  - exact (proj2 (Htwo eq_refl)).
  - exact (Hone "red.png [input]" eq_refl).
  - exact (Htype (PyList [PyStr "a.png"; PyInt 7]) _ eq_refl eq_refl).
Defined.

(** A filename with spaces around it is kept with them. *)
Lemma untrimmed_filename_kept :
  py_strip " a.png " = "a.png"
  /\ normalize_images Fixture.lib (PyStr " a.png ") = Ok [" a.png "]
  /\ normalize_images Fixture.lib (PyStr " a.png ") <> Ok [py_strip " a.png "].
Proof.
  split; [reflexivity|]. split; [reflexivity|]. discriminate.
Qed.

(* ------------------------------------------------------------------ *)
(** ** The three outputs together *)

Lemma all_str_names (names : list string) : all_str (map PyStr names) = Some names.
Proof. induction names as [|n ns IH]; simpl; [reflexivity | now rewrite IH]. Qed.



Section Order.

Variable L : Lib.
Hypothesis HL : LibLaws L.

(** A slice of a stack of image tensors is the tensor of the image at that
    position. *)
Lemma slice_of_stack (imgs : list (image L)) (h w i : nat) (img : image L) :
  Forall (fun img => image_size L img = (w, h)) imgs ->
  nth_error imgs i = Some img ->
  batch_slice
    (mkTensor [List.length imgs; h; w; 3]
              (List.concat (map (fun img => t_data (image_tensor L img)) imgs))) i
  = Some (image_tensor L img).
Proof.
  intros Hall Hi.
  rewrite <- (length_map (image_tensor L) imgs), <- (map_map (image_tensor L) t_data).
  apply batch_slice_cat.
  - apply Forall_forall. intros t Ht. apply in_map_iff in Ht.
    destruct Ht as (j & <- & Hj). rewrite Forall_forall in Hall.
    rewrite (image_tensor_shape HL), (image_tensor_length HL), (Hall j Hj).
    simpl. split; [reflexivity | lia].
  - now rewrite nth_error_map, Hi.
Qed.

(** Whatever branch builds it, the batch is a stack of image tensors. *)
Lemma build_batch_stack (imgs : list (image L)) (resize_to_first : bool)
    (resize_mode : string) (batch : tensor) :
  build_batch L imgs (map (image_tensor L) imgs) resize_to_first resize_mode = Ok batch ->
  exists h w,
    Forall (fun img => image_size L img = (w, h))
           (map (batch_source L imgs resize_to_first resize_mode) imgs)
    /\ batch
       = mkTensor [List.length imgs; h; w; 3]
           (List.concat
              (map (fun img => t_data (image_tensor L img))
                   (map (batch_source L imgs resize_to_first resize_mode) imgs))).
Proof.
  intros H. destruct imgs as [|img0 [|img1 rest]].
  - destruct resize_to_first; discriminate H.
  - cbn in H. injection H as <-.
    destruct (image_size L img0) as [w h] eqn:Esize. exists h, w. split.
    + repeat constructor. exact Esize.
    + cbn [map batch_source List.concat List.length]. rewrite app_nil_r.
      pose proof (image_tensor_shape HL img0) as Hs. rewrite Esize in Hs.
      destruct (image_tensor L img0) as [sh d]. cbn in Hs |- *. now rewrite Hs.
  - destruct resize_to_first.
    + unfold build_batch in H. cbn [List.length Nat.eqb py_index nth_error bind] in H.
      destruct (image_size L img0) as [w0 h0] eqn:Esize.
      rewrite mapM_tensors in H. cbn [bind] in H.
      assert (Hres : Forall (fun img => image_size L img = (w0, h0))
                       (map (fun img => resize_pil L img (w0, h0) resize_mode)
                            (img0 :: img1 :: rest))).
      { apply Forall_forall. intros x Hx. apply in_map_iff in Hx.
        destruct Hx as (j & <- & _). apply (resize_gives_size HL). }
      rewrite (cat_same_size HL (h := h0) (w := w0)) in H by (discriminate || exact Hres).
      injection H as <-. exists h0, w0.
      unfold batch_source. rewrite Esize. split; [exact Hres|].
      now rewrite !length_map.
    + rewrite (build_batch_no_resize HL) in H by (simpl; lia).
      destruct (List.length (nodup hw_eq_dec (map (image_hw L) (img0 :: img1 :: rest))) =? 1)%nat
        eqn:E; [|discriminate H].
      apply Nat.eqb_eq in E.
      assert (Hne : map (image_hw L) (img0 :: img1 :: rest) <> []) by discriminate.
      pose proof (proj1 (nodup_singleton hw_eq_dec Hne) E) as Heq.
      pose proof (proj2 (same_sizes_hw L (img0 :: img1 :: rest)) Heq) as Hsame.
      clear E Heq. pose proof (same_sizes_Forall Hsame) as E.
      destruct (image_size L img0) as [w h] eqn:Esize.
      rewrite (cat_same_size HL (h := h) (w := w)) in H by (discriminate || exact E).
      injection H as <-. exists h, w.
      unfold batch_source. rewrite map_id. split; [exact E | reflexivity].
Qed.

End Order.

(** C10.  On success the three outputs follow the order of the normalised
    filenames: at every index the name is the input's, the list element is
    the tensor of the image opened from that name, and the slice of the
    batch is the tensor of that same image, resized to the first image's
    size when several images are resized and as it is otherwise. *)
Theorem outputs_keep_input_order (L : Lib) (HL : LibLaws L) (images : pyvalue)
    (resize_to_first : bool) (resize_mode : string)
    (batch : tensor) (image_list : list tensor) (names : list string) :
  load L images resize_to_first resize_mode = Ok (batch, image_list, names) ->
  normalize_images L images = Ok names
  /\ List.length image_list = List.length names
  /\ hd_error (t_shape batch) = Some (List.length names)
  /\ exists imgs,
       mapM (open_image L) names = Ok imgs
       /\ forall i name,
            nth_error names i = Some name ->
            exists img,
              open_image L name = Ok img
              /\ nth_error imgs i = Some img
              /\ nth_error image_list i = Some (image_tensor L img)
              /\ batch_slice batch i
                 = Some (image_tensor L
                           (batch_source L imgs resize_to_first resize_mode img)).
Proof.
  intros H. apply load_inv in H. destruct H as (Hn & imgs & Ho & -> & Hb).
  pose proof (mapM_length _ _ Ho) as Hl.
  destruct (build_batch_stack HL _ _ _ Hb) as (h & w & Hall & ->).
  split; [exact Hn|]. split; [now rewrite length_map|].
  split; [cbn; now rewrite Hl|].
  exists imgs. split; [exact Ho|]. intros i name Hi.
  destruct (mapM_nth_error _ _ _ Ho Hi) as (img & Hopen & Himg).
  exists img. split; [exact Hopen|]. split; [exact Himg|]. split.
  - now rewrite nth_error_map, Himg.
  - rewrite <- (length_map (batch_source L imgs resize_to_first resize_mode) imgs).
    apply (slice_of_stack HL); [exact Hall|].
    now rewrite nth_error_map, Himg.
Qed.

Lemma outputs_keep_input_order_witness :
  exists batch image_list names,
    load Fixture.lib (PyList [PyStr "red.png"; PyStr "wide.png"]) true "bicubic"
    = Ok (batch, image_list, names)
    /\ nth_error names 1 = Some "wide.png"
    /\ nth_error image_list 1
       = Some (image_tensor Fixture.lib (Fixture.solid 3 1 x00 x80 xff))
    /\ batch_slice batch 1
       = Some (image_tensor Fixture.lib
                 (resize_pil Fixture.lib (Fixture.solid 3 1 x00 x80 xff) (2, 2) "bicubic")).
Proof.
  destruct (load Fixture.lib (PyList [PyStr "red.png"; PyStr "wide.png"]) true "bicubic")
    as [[[batch image_list] names]|e] eqn:E; [|vm_compute in E; discriminate E].
  destruct (outputs_keep_input_order fixture_laws _ _ _ E)
    as (Hn & _ & _ & imgs & Ho & Hidx).
  injection Hn as <-. injection Ho as <-.
  destruct (Hidx 1 "wide.png" eq_refl) as (img & Hopen & _ & Hlist & Hslice).
  injection Hopen as <-.
  exists batch, image_list, ["red.png"; "wide.png"].
  split; [reflexivity|]. split; [reflexivity|]. split; [exact Hlist | exact Hslice].
Defined.

(* ------------------------------------------------------------------ *)
(** ** Further properties of the loader *)

(** *** Paths *)

(** X1.  A path the resolver returns exists, and it is the annotated path
    or, only when the annotated path does not exist, the path under the
    input directory; so a file is only ever opened from a path that exists. *)
Theorem resolve_path_sound (L : Lib) (name path : string) :
  resolve_path L name = Ok path ->
  path_exists L path = true
  /\ (path = get_annotated_filepath L name
      \/ (path = fallback_path L name
          /\ path_exists L (get_annotated_filepath L name) = false))
  /\ (forall img, open_image L name = Ok img -> Image_open L path = Ok img).
Proof.
  unfold resolve_path, fallback_path. intros H.
  destruct (path_exists L (get_annotated_filepath L name)) eqn:E1; cbn in H.
  - injection H as <-. split; [exact E1|]. split; [now left|].
    intros img Ho. unfold open_image, resolve_path in Ho. now rewrite E1 in Ho.
  - destruct (path_exists L (path_join L (get_input_directory L) name)) eqn:E2;
      [|discriminate H].
    injection H as <-. split; [exact E2|]. split; [right; now split|].
    intros img Ho. unfold open_image, resolve_path in Ho. now rewrite E1, E2 in Ho.
Qed.

Lemma resolve_path_sound_witness :
  resolve_path Fixture.lib "shot [output]" = Ok "/comfy/input/shot [output]"
  /\ path_exists Fixture.lib "/comfy/input/shot [output]" = true.
Proof.
  split; [reflexivity|].
  exact (proj1 (resolve_path_sound Fixture.lib "shot [output]" eq_refl)).
Defined.

(** X2.  The loop of lines 104-114 stops at the first filename whose turn
    raises, be it the resolver (no such file) or [Image.open] (the header
    is not an image's): the call raises that exception, whatever filenames
    follow and whatever the resize settings are.  An error of the
    normaliser comes before any file is touched. *)
Theorem load_first_failure (L : Lib) (images : pyvalue)
    (resize_to_first : bool) (resize_mode : string) :
  (forall e, normalize_images L images = Raise e ->
             load L images resize_to_first resize_mode = Raise e)
  /\ (forall before name after imgs e,
        normalize_images L images = Ok (before ++ name :: after)%list ->
        mapM (open_image L) before = Ok imgs ->
        open_image L name = Raise e ->
        load L images resize_to_first resize_mode = Raise e).
Proof.
  split.
  - intros e Hn. unfold load. now rewrite Hn.
  - intros before name after imgs e Hn Hb He.
    unfold load. rewrite Hn. cbn [bind].
    rewrite mapM_app, Hb. cbn [bind mapM]. now rewrite He.
Qed.

Lemma load_first_failure_witness :
  exists e,
    open_image Fixture.lib "ghost.png" = Raise e
    /\ load Fixture.lib (PyList [PyStr "red.png"; PyStr "ghost.png"; PyStr "wide.png"])
            false "nearest"
       = Raise e.
Proof.
  destruct (open_image Fixture.lib "ghost.png") as [img|e] eqn:E;
    [vm_compute in E; discriminate E|].
  exists e. split; [reflexivity|].
  destruct (load_first_failure Fixture.lib
              (PyList [PyStr "red.png"; PyStr "ghost.png"; PyStr "wide.png"])
              false "nearest") as [_ Hloop].
  exact (Hloop ["red.png"] "ghost.png" ["wide.png"]
               [Fixture.solid 2 2 xff x00 x00] e eq_refl eq_refl E).
Defined.

(** *** Inputs *)

Lemma all_str_iff (xs : list pyvalue) (names : list string) :
  all_str xs = Some names <-> xs = map PyStr names.
Proof.
  revert names. induction xs as [|x xs IH]; intros names.
  - simpl. split; intros H.
    + injection H as <-. reflexivity.
    + destruct names; [reflexivity | discriminate H].
  - split; intros H.
    + destruct x; try discriminate H. simpl in H.
      destruct (all_str xs) as [ns|] eqn:E; [|discriminate H].
      injection H as <-. simpl. f_equal. now apply IH.
    + destruct names as [|n ns]; [discriminate H|].
      injection H as -> ->. simpl. now rewrite (proj2 (IH ns) eq_refl).
Qed.

(** X3.  A value that is not a string is accepted exactly when it is a list
    whose items are all strings, and the names are then those strings in
    order: no other value gets past lines 85-100. *)
Theorem normalize_direct_input (L : Lib) (images : pyvalue) (names : list string) :
  (forall s, images <> PyStr s) ->
  (normalize_images L images = Ok names <-> images = PyList (map PyStr names)).
Proof.
  intros Hns. unfold normalize_images, check_images.
  destruct images as [| b | z | f | s | xs | kv]; cbn;
    try (split; intros H; discriminate H).
  - now elim (Hns s).
  - destruct (all_str xs) as [ns|] eqn:E.
    + split; intros H.
      * injection H as <-. f_equal. now apply all_str_iff.
      * injection H as H. apply all_str_iff in H. congruence.
    + split; intros H; [discriminate H|].
      injection H as H. apply all_str_iff in H. congruence.
Qed.

Lemma normalize_direct_input_witness :
  normalize_images Fixture.lib (PyList [PyStr "b.png"; PyStr "a.png"])
  = Ok ["b.png"; "a.png"].
Proof.
  assert (Hns : forall s, PyList [PyStr "b.png"; PyStr "a.png"] <> PyStr s)
    by discriminate.
  exact (proj2 (@normalize_direct_input Fixture.lib
                  (PyList [PyStr "b.png"; PyStr "a.png"]) ["b.png"; "a.png"] Hns)
               eq_refl).
Defined.

(** X4.  The form of the input does not matter beyond the names it stands
    for: a call whose input normalises to a list of names does exactly what
    the call on that list of strings does, outputs and errors alike. *)
Theorem load_on_normal_form (L : Lib) (images : pyvalue) (names : list string)
    (resize_to_first : bool) (resize_mode : string) :
  normalize_images L images = Ok names ->
  load L images resize_to_first resize_mode
  = load L (PyList (map PyStr names)) resize_to_first resize_mode.
Proof.
  intros Hn. unfold load. rewrite Hn.
  assert (Hl : normalize_images L (PyList (map PyStr names)) = Ok names).
  { unfold normalize_images, check_images. cbn. now rewrite all_str_names. }
  now rewrite Hl.
Qed.

Lemma load_on_normal_form_witness :
  load Fixture.lib (PyStr ("  [" ++ quoted "wide.png" ++ " , " ++ quoted "red.png" ++ "] "))
       true "bicubic"
  = load Fixture.lib (PyList [PyStr "wide.png"; PyStr "red.png"]) true "bicubic".
Proof.
  exact (load_on_normal_form Fixture.lib
           (PyStr ("  [" ++ quoted "wide.png" ++ " , " ++ quoted "red.png" ++ "] "))
           (names := ["wide.png"; "red.png"]) true "bicubic" eq_refl).
Defined.

(** X5.  A string made of whitespace only, the empty string included, is
    not read as missing input: it is kept as it is and looked up as one
    filename. *)
Theorem blank_string_is_a_filename (L : Lib) (str : string)
    (resize_to_first : bool) (resize_mode : string) :
  py_strip str = EmptyString ->
  normalize_images L (PyStr str) = Ok [str]
  /\ load L (PyStr str) resize_to_first resize_mode
     = (img <- open_image L str ;;
        Ok (image_tensor L img, [image_tensor L img], [str])).
Proof.
  intros Hs.
  assert (Hn : normalize_images L (PyStr str) = Ok [str]).
  { unfold normalize_images, parse_images. now rewrite Hs. }
  split; [exact Hn|].
  unfold load. rewrite Hn. cbn [bind mapM].
  destruct (open_image L str); reflexivity.
Qed.

Lemma blank_string_is_a_filename_witness :
  exists msg, load Fixture.lib (PyStr "   ") true "lanczos" = Raise (FileNotFoundError msg).
Proof.
  destruct (blank_string_is_a_filename Fixture.lib "   " true "lanczos" eq_refl)
    as [_ Hload].
  rewrite Hload. eexists. reflexivity.
Defined.

(** *** The converter and the resizer *)



(** X7.  A filter other than lanczos is used for exactly one spelling of
    the mode: nearest, bilinear and bicubic are selected by their own
    lower-case names and by nothing else. *)
Theorem filter_selected_by_name (mode : string) :
  (dict_get resample_table mode LANCZOS = NEAREST <-> mode = "nearest")
  /\ (dict_get resample_table mode LANCZOS = BILINEAR <-> mode = "bilinear")
  /\ (dict_get resample_table mode LANCZOS = BICUBIC <-> mode = "bicubic").
Proof.
  unfold dict_get, resample_table. cbn [find fst snd].
  destruct (String.eqb_spec "nearest" mode) as [<-|N1];
    [repeat split; intros H; (reflexivity || discriminate H)|].
  destruct (String.eqb_spec "bilinear" mode) as [<-|N2];
    [repeat split; intros H; (reflexivity || discriminate H)|].
  destruct (String.eqb_spec "bicubic" mode) as [<-|N3];
    [repeat split; intros H; (reflexivity || discriminate H)|].
  destruct (String.eqb_spec "lanczos" mode) as [<-|N4];
    repeat split; intros H; (discriminate H || (symmetry in H; contradiction)).
Qed.

(** X8.  The modes the node offers for [resize_mode] are exactly the keys
    of the filter table, so an offered mode never takes the fallback;
    different offered modes select different filters; and the declared
    default is an offered mode that selects the filter the fallback uses. *)
Theorem offered_modes_have_filters :
  (forall mode,
     In mode (offered_choices (required_input "resize_mode"))
     <-> exists filter, In (mode, filter) resample_table)
  /\ NoDup (map (fun mode => dict_get resample_table mode LANCZOS)
                (offered_choices (required_input "resize_mode")))
  /\ (exists mode,
        declared_default (required_input "resize_mode") = Some (PyStr mode)
        /\ In mode (offered_choices (required_input "resize_mode"))
        /\ dict_get resample_table mode LANCZOS = LANCZOS).
Proof.
  split; [|split].
  - intros mode. cbn. split.
    + intros [<-|[<-|[<-|[<-|[]]]]]; eexists; cbn; eauto 6.
    + intros (f & [H|[H|[H|[H|[]]]]]); injection H as <- _; auto 6.
  - cbn. repeat constructor; cbn; intuition discriminate.
  - exists "lanczos". cbn. split; [reflexivity|]. split; [|reflexivity].
    do 3 right. now left.
Qed.

(** *** When the call succeeds *)

Section Outcome.

Variable L : Lib.
Hypothesis HL : LibLaws L.

(** Lines 123-127 never fail on two or more opened images. *)
Lemma build_batch_resized (img0 img1 : image L) (rest : list (image L))
    (resize_mode : string) :
  exists batch,
    build_batch L (img0 :: img1 :: rest)
                (map (image_tensor L) (img0 :: img1 :: rest)) true resize_mode
    = Ok batch.
Proof.
  unfold build_batch. cbn [List.length Nat.eqb py_index nth_error bind].
  destruct (image_size L img0) as [w0 h0].
  rewrite mapM_tensors. cbn [bind].
  rewrite (cat_same_size HL (h := h0) (w := w0)).
  - eexists. reflexivity.
  - discriminate.
  - apply Forall_forall. intros x Hx. apply in_map_iff in Hx.
    destruct Hx as (j & <- & _). apply (resize_gives_size HL).
Qed.

Lemma build_batch_success (imgs : list (image L)) (resize_to_first : bool)
    (resize_mode : string) :
  (exists batch,
     build_batch L imgs (map (image_tensor L) imgs) resize_to_first resize_mode = Ok batch)
  <-> imgs <> [] /\ (resize_to_first = true \/ same_sizes L imgs).
Proof.
  split.
  - intros [b H]. destruct imgs as [|i0 [|i1 rest]].
    + destruct resize_to_first; discriminate H.
    + split; [discriminate|]. right. intros i j [<-|[]] [<-|[]]. reflexivity.
    + split; [discriminate|]. destruct resize_to_first; [now left|right].
      rewrite (build_batch_no_resize HL) in H by (simpl; lia).
      destruct (List.length (nodup hw_eq_dec (map (image_hw L) (i0 :: i1 :: rest))) =? 1)%nat
        eqn:E; [|discriminate H].
      apply Nat.eqb_eq in E.
      assert (Hne : map (image_hw L) (i0 :: i1 :: rest) <> []) by discriminate.
      apply same_sizes_hw. exact (proj1 (nodup_singleton hw_eq_dec Hne) E).
  - intros [Hne Hc]. destruct imgs as [|i0 [|i1 rest]]; [now elim Hne| |].
    + eexists. reflexivity.
    + destruct resize_to_first; [apply build_batch_resized|].
      destruct Hc as [Hc|Hsame]; [discriminate Hc|].
      rewrite (build_batch_no_resize HL) by (simpl; lia).
      assert (Hne' : map (image_hw L) (i0 :: i1 :: rest) <> []) by discriminate.
      pose proof (proj2 (nodup_singleton hw_eq_dec Hne')
                        (proj1 (same_sizes_hw L _) Hsame)) as E.
      apply Nat.eqb_eq in E. rewrite E.
      pose proof (same_sizes_Forall Hsame) as Hall.
      destruct (image_size L i0) as [w h].
      rewrite (cat_same_size HL (h := h) (w := w)) by (discriminate || exact Hall).
      eexists. reflexivity.
Qed.

Lemma build_batch_failure (imgs : list (image L)) (resize_to_first : bool)
    (resize_mode : string) (e : exn) :
  build_batch L imgs (map (image_tensor L) imgs) resize_to_first resize_mode = Raise e ->
  (e = IndexError "list index out of range" /\ imgs = [] /\ resize_to_first = true)
  \/ (e = ValueError size_mismatch_message /\ resize_to_first = false).
Proof.
  intros H. destruct imgs as [|i0 [|i1 rest]].
  - destruct resize_to_first; cbn in H; injection H as <-; [left|right]; auto.
  - discriminate H.
  - destruct resize_to_first.
    + destruct (build_batch_resized i0 i1 rest resize_mode) as [b Hb].
      rewrite Hb in H. discriminate H.
    + right. split; [|reflexivity].
      rewrite (build_batch_no_resize HL) in H by (simpl; lia).
      destruct (List.length (nodup hw_eq_dec (map (image_hw L) (i0 :: i1 :: rest))) =? 1)%nat
        eqn:E; [|now injection H as <-].
      apply Nat.eqb_eq in E.
      assert (Hne : map (image_hw L) (i0 :: i1 :: rest) <> []) by discriminate.
      pose proof (proj2 (same_sizes_hw L _) (proj1 (nodup_singleton hw_eq_dec Hne) E))
        as Hsame.
      pose proof (same_sizes_Forall Hsame) as Hall.
      destruct (image_size L i0) as [w h].
      rewrite (cat_same_size HL (h := h) (w := w)) in H by (discriminate || exact Hall).
      discriminate H.
Qed.

End Outcome.

(** X9.  When every file opens and the pixels of every opened image can be
    read, as they can for the images of the model, the call succeeds
    exactly when there is at least one image and either [resize_to_first]
    is set or all images have one size.  Its only failures are then the
    index error of an empty list with [resize_to_first] set and the value
    error about sizes with it off. *)
Theorem load_outcome (L : Lib) (HL : LibLaws L) (images : pyvalue)
    (names : list string) (imgs : list (image L))
    (resize_to_first : bool) (resize_mode : string) :
  normalize_images L images = Ok names ->
  mapM (open_image L) names = Ok imgs ->
  ((exists batch,
      load L images resize_to_first resize_mode
      = Ok (batch, map (image_tensor L) imgs, names))
   <-> names <> [] /\ (resize_to_first = true \/ same_sizes L imgs))
  /\ (forall e,
        load L images resize_to_first resize_mode = Raise e ->
        (e = IndexError "list index out of range"
         /\ names = [] /\ resize_to_first = true)
        \/ (e = ValueError size_mismatch_message /\ resize_to_first = false)).
Proof.
  intros Hn Ho.
  pose proof (mapM_length _ _ Ho) as Hl.
  assert (Hnil : names = [] <-> imgs = []).
  { destruct names, imgs; simpl in Hl; split; intros H;
      (reflexivity || discriminate). }
  rewrite (load_steps L images resize_to_first resize_mode Hn Ho).
  pose proof (build_batch_success HL imgs resize_to_first resize_mode) as Hs.
  split.
  - split.
    + intros [b H].
      destruct (build_batch L imgs (map (image_tensor L) imgs)
                            resize_to_first resize_mode) as [b'|e] eqn:E;
        [|discriminate H].
      destruct (proj1 Hs (ex_intro _ b' eq_refl)) as [Hne Hc].
      split; [|exact Hc]. intros Hnames. apply Hne, Hnil, Hnames.
    + intros [Hne Hc].
      destruct (proj2 Hs) as [b Hb].
      { split; [|exact Hc]. intros Himgs. apply Hne, Hnil, Himgs. }
      exists b. now rewrite Hb.
  - intros e H.
    destruct (build_batch L imgs (map (image_tensor L) imgs)
                          resize_to_first resize_mode) as [b'|e'] eqn:E;
      [discriminate H|].
    injection H as <-.
    destruct (build_batch_failure HL _ _ _ E) as [(He & Hi & Hr)|Hv].
    + left. split; [exact He|]. split; [now apply Hnil | exact Hr].
    + now right.
Qed.

Lemma load_outcome_witness :
  (exists batch,
     load Fixture.lib (PyList [PyStr "red.png"; PyStr "wide.png"]) true "nearest"
     = Ok (batch,
           map (image_tensor Fixture.lib)
               [Fixture.solid 2 2 xff x00 x00; Fixture.solid 3 1 x00 x80 xff],
           ["red.png"; "wide.png"]))
  /\ ~ same_sizes Fixture.lib
         [Fixture.solid 2 2 xff x00 x00; Fixture.solid 3 1 x00 x80 xff].
Proof.
  destruct (load_outcome fixture_laws (PyList [PyStr "red.png"; PyStr "wide.png"])
              (names := ["red.png"; "wide.png"])
              (imgs := [Fixture.solid 2 2 xff x00 x00; Fixture.solid 3 1 x00 x80 xff])
              true "nearest" eq_refl eq_refl) as [Hiff _].
  split.
  - apply Hiff. split; [discriminate | now left].
  - intros H.
    specialize (H _ _ (or_introl eq_refl) (or_intror (or_introl eq_refl))).
    discriminate H.
Defined.

(** X10.  Setting [resize_to_first] never turns a success into a failure:
    a call that succeeds without it succeeds with it, for any mode, with
    the same list, the same names and a batch of the same shape. *)
Theorem resize_to_first_never_hurts (L : Lib) (HL : LibLaws L) (images : pyvalue)
    (mode mode' : string) (batch : tensor) (image_list : list tensor)
    (names : list string) :
  load L images false mode = Ok (batch, image_list, names) ->
  exists batch',
    load L images true mode' = Ok (batch', image_list, names)
    /\ t_shape batch' = t_shape batch.
Proof.
  intros H. apply load_inv in H. destruct H as (Hn & imgs & Ho & -> & Hb).
  destruct (proj1 (build_batch_success HL imgs false mode) (ex_intro _ batch Hb))
    as [Hne _].
  destruct (proj2 (build_batch_success HL imgs true mode')) as [b' Hb'].
  { split; [exact Hne | now left]. }
  exists b'. split.
  - rewrite (load_steps L images true mode' Hn Ho), Hb'. reflexivity.
  - destruct (build_batch_stack HL _ _ _ Hb) as (h & w & Hall & ->).
    destruct (build_batch_stack HL _ _ _ Hb') as (h' & w' & Hall' & ->).
    cbn [t_shape].
    destruct imgs as [|i0 rest]; [now elim Hne|].
    inversion Hall as [|? ? H0 _]; subst.
    inversion Hall' as [|? ? H0' _]; subst.
    assert (E : image_size L i0 = (w, h)).
    { destruct rest; exact H0. }
    assert (E' : image_size L i0 = (w', h')).
    { destruct rest; [exact H0'|].
      cbn [batch_source] in H0'. unfold resize_pil in H0'.
      now rewrite (resize_gives_size HL) in H0'. }
    congruence.
Qed.

Lemma resize_to_first_never_hurts_witness :
  exists batch batch' image_list names,
    load Fixture.lib (PyList [PyStr "red.png"; PyStr "shot [output]"]) false "nearest"
    = Ok (batch, image_list, names)
    /\ load Fixture.lib (PyList [PyStr "red.png"; PyStr "shot [output]"]) true "bicubic"
       = Ok (batch', image_list, names)
    /\ t_shape batch' = t_shape batch.
Proof.
  destruct (load Fixture.lib (PyList [PyStr "red.png"; PyStr "shot [output]"]) false "nearest")
    as [[[b l] n]|e] eqn:E; [|vm_compute in E; discriminate E].
  destruct (resize_to_first_never_hurts fixture_laws _ "nearest" "bicubic" E)
    as (b' & Hload & Hshape).
  exists b, b', l, n. split; [reflexivity|]. split; [exact Hload | exact Hshape].
Defined.

(** *** What the outputs hold *)

Lemma image_tensor_unit (L : Lib) (img : image L) :
  Forall in_unit_interval (t_data (image_tensor L img)).
Proof.
  rewrite image_tensor_data. apply Forall_forall. intros x Hx.
  apply in_map_iff in Hx. destruct Hx as (c & <- & _).
  apply scaled_in_unit_interval.
Qed.

Lemma length_concat_blocks {A : Type} (k : nat) (ls : list (list A)) :
  Forall (fun l => List.length l = k) ls ->
  List.length (List.concat ls) = List.length ls * k.
Proof.
  induction 1 as [|l ls Hl _ IH]; simpl; [reflexivity|].
  rewrite length_app, Hl, IH. reflexivity.
Qed.

(** X11.  Every number the call returns, in the batch and in each tensor of
    the list, is a binary32 value between 0 and 1: resizing and stacking
    never take a value out of the range the converter produces. *)
Theorem load_values_in_unit_interval (L : Lib) (HL : LibLaws L) (images : pyvalue)
    (resize_to_first : bool) (resize_mode : string)
    (batch : tensor) (image_list : list tensor) (names : list string) :
  load L images resize_to_first resize_mode = Ok (batch, image_list, names) ->
  Forall in_unit_interval (t_data batch)
  /\ Forall (fun t => Forall in_unit_interval (t_data t)) image_list.
Proof.
  intros H. apply load_inv in H. destruct H as (_ & imgs & _ & -> & Hb).
  destruct (build_batch_stack HL _ _ _ Hb) as (h & w & _ & ->).
  split.
  - cbn [t_data]. apply Forall_forall. intros x Hx.
    apply in_concat in Hx. destruct Hx as (d & Hd & Hx).
    apply in_map_iff in Hd. destruct Hd as (img & <- & _).
    pose proof (image_tensor_unit L img) as Hu.
    rewrite Forall_forall in Hu. now apply Hu.
  - apply Forall_forall. intros t Ht.
    apply in_map_iff in Ht. destruct Ht as (img & <- & _).
    apply image_tensor_unit.
Qed.

Lemma load_values_in_unit_interval_witness :
  exists batch image_list names,
    load Fixture.lib (PyList [PyStr "wide.png"; PyStr "out.png [output]"]) true "lanczos"
    = Ok (batch, image_list, names)
    /\ Forall in_unit_interval (t_data batch).
Proof.
  destruct (load Fixture.lib (PyList [PyStr "wide.png"; PyStr "out.png [output]"]) true "lanczos")
    as [[[b l] n]|e] eqn:E; [|vm_compute in E; discriminate E].
  exists b, l, n. split; [reflexivity|].
  exact (proj1 (load_values_in_unit_interval fixture_laws _ _ _ E)).
Defined.

(** X12.  Every tensor the call returns has the host's IMAGE layout, with
    exactly as many values as its shape announces: each tensor of the list
    has batch dimension 1 and the batch has one row per filename. *)
Theorem load_outputs_image_layout (L : Lib) (HL : LibLaws L) (images : pyvalue)
    (resize_to_first : bool) (resize_mode : string)
    (batch : tensor) (image_list : list tensor) (names : list string) :
  load L images resize_to_first resize_mode = Ok (batch, image_list, names) ->
  image_layout batch
  /\ hd_error (t_shape batch) = Some (List.length names)
  /\ Forall (fun t => image_layout t /\ hd_error (t_shape t) = Some 1) image_list.
Proof.
  intros H. apply load_inv in H. destruct H as (_ & imgs & Ho & -> & Hb).
  pose proof (mapM_length _ _ Ho) as Hl.
  destruct (build_batch_stack HL _ _ _ Hb) as (h & w & Hall & ->).
  split; [|split].
  - unfold image_layout. cbn [t_shape t_data]. split; [reflexivity|].
    split; [reflexivity|].
    rewrite (length_concat_blocks (k := h * w * 3)).
    + rewrite !length_map. simpl. lia.
    + apply Forall_forall. intros d Hd. apply in_map_iff in Hd.
      destruct Hd as (img & <- & Himg). rewrite Forall_forall in Hall.
      now rewrite (image_tensor_length HL), (Hall img Himg).
  - cbn. now rewrite Hl.
  - apply Forall_forall. intros t Ht. apply in_map_iff in Ht.
    destruct Ht as (img & <- & _). unfold image_layout.
    rewrite (image_tensor_shape HL), (image_tensor_length HL).
    cbn. repeat split. lia.
Qed.

Lemma load_outputs_image_layout_witness :
  exists batch image_list names,
    load Fixture.lib (PyList [PyStr "wide.png"; PyStr "red.png"]) true "nearest"
    = Ok (batch, image_list, names)
    /\ image_layout batch.
Proof.
  destruct (load Fixture.lib (PyList [PyStr "wide.png"; PyStr "red.png"]) true "nearest")
    as [[[b l] n]|e] eqn:E; [|vm_compute in E; discriminate E].
  exists b, l, n. split; [reflexivity|].
  exact (proj1 (load_outputs_image_layout fixture_laws _ _ _ E)).
Defined.
